(** * RAG web application: chunking, vector index and query orchestration

    A shallow embedding of the core of the application:
    - [app/services/chunking.py]  ([hierarchical_chunking], [process_document]),
    - [app/services/vector_db.py] (the [VectorDatabase] wrapper around Qdrant),
    - [app/services/llm.py]       (prompt assembly and provider routing),
    - [app/api/routes/documents.py] and [app/api/routes/queries.py].

    Python [str] values are sequences of Unicode code points, integers are
    unbounded ([Z]), floats that are only compared and carried around
    (similarity scores) are rationals, dictionaries with a fixed set of keys
    are records and open dictionaries (payloads, JSON columns) are [gmap]s. *)

From Stdlib Require Import ZArith NArith List Lia QArith.QArith_base QArith.Qreduction Ascii String.
From stdpp Require Import base option list gmap fin_maps pretty.

Open Scope Z_scope.

(** ** Python strings *)

Abbreviation str := (list N).

Definition py (s : string) : str := N_of_ascii <$> list_ascii_of_string s.

Definition len {A} (l : list A) : Z := Z.of_nat (length l).

(** Truthiness of a string (or list): non-empty. *)
Definition truthy {A} (l : list A) : bool :=
  match l with [] => false | _ => true end.

(** [str.isspace] on one code point: the Unicode white-space characters. *)
Definition isspace (c : N) : bool :=
  ((9 <=? c) && (c <=? 13) || (28 <=? c) && (c <=? 32) || (c =? 133) || (c =? 160)
   || (c =? 5760) || (8192 <=? c) && (c <=? 8202) || (c =? 8232) || (c =? 8233)
   || (c =? 8239) || (c =? 8287) || (c =? 12288))%N.

Fixpoint lstrip (s : str) : str :=
  match s with
  | c :: rest => if isspace c then lstrip rest else s
  | [] => []
  end.

Definition rstrip (s : str) : str := rev (lstrip (rev s)).

(** [s.strip()] *)
Definition strip (s : str) : str := rstrip (lstrip s).

(** The paragraph separator ["\n\n"]. *)
Definition nn : str := [10%N; 10%N].

(** [s.split('\n\n')]: left-to-right, non-overlapping occurrences; [acc] is
    the current piece, reversed. *)
Fixpoint split_nn (acc : str) (s : str) : list str :=
  match s with
  | [] => [rev acc]
  | c :: rest =>
      match rest with
      | d :: rest' =>
          if ((c =? 10) && (d =? 10))%N then rev acc :: split_nn [] rest'
          else split_nn (c :: acc) rest
      | [] => [rev (c :: acc)]
      end
  end.

(** [s[i:]] for an integer [i] (negative indices count from the end, and
    everything is clamped to the string). Note that [s[-0:]] is [s[0:]]. *)
Definition slice_from (s : str) (i : Z) : str :=
  if i <? 0 then drop (Z.to_nat (Z.max 0 (len s + i))) s
  else drop (Z.to_nat i) s.

(** [s[:n]] for a non-negative [n]. *)
Definition slice_to (s : str) (n : nat) : str := take n s.

(** "The last [k] characters of [s], or the whole of [s] if it is shorter":
    the wording of the design for the overlap carried into the next chunk. *)
Definition last_chars (k : Z) (s : str) : str :=
  drop (length s - Z.to_nat k) s.

(** [s] ends with a non-space character. *)
Definition ends_solid (s : str) : Prop :=
  ∃ t c, s = t ++ [c] ∧ isspace c = false.

(** [s] starts with a non-space character. *)
Definition starts_solid (s : str) : Prop :=
  ∃ c t, s = c :: t ∧ isspace c = false.

(** A trimmed, non-empty string: what the chunker takes as a paragraph. *)
Definition solid (p : str) : Prop := p ≠ [] ∧ starts_solid p ∧ ends_solid p.

(** [t] occurs in [s] as a contiguous piece ([t in s]). *)
Definition occurs_in (t s : str) : Prop := ∃ a b, s = a ++ t ++ b.

(** ["\n\n".join(pieces)] *)
Fixpoint join_nn (pieces : list str) : str :=
  match pieces with
  | [] => []
  | [piece] => piece
  | piece :: rest => piece ++ nn ++ join_nn rest
  end.

(** ** Outcomes of calls that may raise *)

Inductive exn :=
  | HTTPException (status_code : Z) (detail : str)
  | Exception (message : str).

Inductive outcome (A : Type) :=
  | Returned (a : A)
  | Raised (e : exn).
Arguments Returned {A} a.
Arguments Raised {A} e.

#[global] Instance outcome_ret : MRet outcome := fun _ a => Returned a.
#[global] Instance outcome_bind : MBind outcome := fun _ _ k o =>
  match o with
  | Returned a => k a
  | Raised e => Raised e
  end.

(** [str(e)] *)
Definition str_of_exn (e : exn) : str :=
  match e with
  | HTTPException _ detail => detail
  | Exception message => message
  end.

(** ** Settings ([app/core/config.py]) *)

Record Settings := {
  chunk_size : Z;
  chunk_overlap : Z;
  embedding_model_name : str;
  embedding_dimension : Z;
  qdrant_collection_name : str;
  max_file_size : Z
}.

Definition default_settings : Settings :=
  {| chunk_size := 1000;
     chunk_overlap := 200;
     embedding_model_name := py "all-MiniLM-L6-v2";
     embedding_dimension := 384;
     qdrant_collection_name := py "rag_documents";
     max_file_size := 50000000 |}.

(** ** Chunking ([app/services/chunking.py]) *)

Module Chunking.

(** The dictionary appended to [chunks]. *)
Record ChunkDict := {
  content : str;
  chunk_index : Z;
  start_para : Z;
  end_para : Z;
  char_count : Z
}.

(** [[p.strip() for p in document_text.split('\n\n') if p.strip()]] *)
Definition paragraphs (document_text : str) : list str :=
  filter (fun p => truthy p = true) (strip <$> split_nn [] document_text).

(** The variables the loop updates. *)
Record LoopState := {
  chunks : list ChunkDict;
  current_chunk : str;
  next_index : Z
}.

Definition init : LoopState :=
  {| chunks := []; current_chunk := []; next_index := 0 |}.

(** The test of line 132. *)
Definition closes (size : Z) (cur paragraph : str) : bool :=
  (len cur + len paragraph >? size) && truthy cur.

(** Line 144. *)
Definition overlap_text (overlap : Z) (cur : str) : str :=
  if len cur >? overlap then slice_from cur (- overlap) else cur.

Definition close_chunk (cur : str) (index para_idx : Z) : ChunkDict :=
  {| content := strip cur;
     chunk_index := index;
     start_para := para_idx - len (split_nn [] cur);
     end_para := para_idx;
     char_count := len cur |}.

(** One iteration of the [for] loop. *)
Definition loop_body (size overlap : Z) (para_idx : Z) (paragraph : str)
    (st : LoopState) : LoopState :=
  let cur := current_chunk st in
  if closes size cur paragraph then
    {| chunks := chunks st ++ [close_chunk cur (next_index st) para_idx];
       current_chunk := overlap_text overlap cur ++ nn ++ paragraph;
       next_index := next_index st + 1 |}
  else
    {| chunks := chunks st;
       current_chunk := if truthy cur then cur ++ nn ++ paragraph else paragraph;
       next_index := next_index st |}.

Fixpoint loop (size overlap : Z) (paras : list str) (para_idx : Z)
    (st : LoopState) : LoopState :=
  match paras with
  | [] => st
  | paragraph :: rest =>
      loop size overlap rest (para_idx + 1)
        (loop_body size overlap para_idx paragraph st)
  end.

(** The final chunk (lines 154-162). *)
Definition finish (n_paragraphs : Z) (st : LoopState) : list ChunkDict :=
  let cur := current_chunk st in
  if truthy (strip cur) then
    chunks st ++
      [{| content := strip cur;
          chunk_index := next_index st;
          start_para := n_paragraphs - len (split_nn [] cur);
          end_para := n_paragraphs;
          char_count := len cur |}]
  else chunks st.

Definition hierarchical_chunking (settings : Settings) (document_text : str)
    (chunk_size_arg chunk_overlap_arg : option Z) : list ChunkDict :=
  let size := default (chunk_size settings) chunk_size_arg in
  let overlap := default (chunk_overlap settings) chunk_overlap_arg in
  let paras := paragraphs document_text in
  finish (len paras) (loop size overlap paras 0 init).

(** [process_document]: text extraction is an external collaborator, so its
    outcome is an argument. *)
Definition process_document (settings : Settings) (extracted : outcome str)
    : outcome (list ChunkDict) :=
  text ← extracted;
  mret (hierarchical_chunking settings text None None).

(** The four readers of [extract_text_from_document] (they read the file
    system): what each returns or raises for a path. *)
Record Extractors := {
  extract_text_from_pdf : str -> outcome str;
  extract_text_from_docx : str -> outcome str;
  extract_text_from_xlsx : str -> outcome str;
  extract_text_from_txt : str -> outcome str
}.

Definition extract_text_from_document (readers : Extractors)
    (file_path file_type : str) : outcome str :=
  if bool_decide (file_type = py "application/pdf") then
    extract_text_from_pdf readers file_path
  else if bool_decide
            (file_type
             = py "application/vnd.openxmlformats-officedocument.wordprocessingml.document")
  then extract_text_from_docx readers file_path
  else if bool_decide
            (file_type
             = py "application/vnd.openxmlformats-officedocument.spreadsheetml.sheet")
  then extract_text_from_xlsx readers file_path
  else if bool_decide (file_type = py "text/plain") then
    extract_text_from_txt readers file_path
  else Raised (Exception (py "Unsupported file type: " ++ file_type)).

(** [process_document] on a file: extraction, then chunking with the
    configured size and overlap. *)
Definition process_file (settings : Settings) (readers : Extractors)
    (file_path file_type : str) : outcome (list ChunkDict) :=
  process_document settings (extract_text_from_document readers file_path file_type).

(** The buffer of a chunk that starts from the paragraph [p]: [p] alone, or
    at most [overlap] characters carried over, a separator and [p]. *)
Definition starts_from (overlap : Z) (p buffer : str) : Prop :=
  buffer = p ∨ ∃ tail, len tail <= overlap ∧ buffer = tail ++ nn ++ p.

(** What holds of every buffer: it fits the size limit but for one
    separator, or it starts from a paragraph. *)
Definition buffer_shaped (size overlap : Z) (paras : list str) (buffer : str)
    : Prop :=
  len buffer <= size + 2 ∨ ∃ p, p ∈ paras ∧ starts_from overlap p buffer.

(** What holds of every chunk: it fits the size limit but for one
    separator, or it is the trimmed buffer that starts from a paragraph [p],
    and then has at most [overlap + 2 + len p] characters. *)
Definition chunk_shaped (size overlap : Z) (paras : list str) (c : ChunkDict)
    : Prop :=
  len (content c) <= size + 2
  ∨ ∃ p buffer,
      p ∈ paras ∧ starts_from overlap p buffer ∧ content c = strip buffer
      ∧ len (content c) <= overlap + 2 + len p.

(** A chunk that is non-empty and trimmed, and whose [char_count] is at
    least its length. *)
Definition well_formed (c : ChunkDict) : Prop :=
  content c ≠ [] ∧ strip (content c) = content c ∧ len (content c) <= char_count c.

(** The length bound a buffer obeys: the size limit plus one separator, or
    the overlap, one separator and one paragraph. *)
Definition bounded (size overlap : Z) (paras : list str) (n : Z) : Prop :=
  n <= size + 2 ∨ ∃ p, p ∈ paras ∧ n <= overlap + 2 + len p.

Definition state_bounded (size overlap : Z) (paras : list str)
    (st : LoopState) : Prop :=
  bounded size overlap paras (len (current_chunk st))
  ∧ Forall (fun c => bounded size overlap paras (len (content c))) (chunks st).

End Chunking.

(** ** Values of open dictionaries (payloads, JSON columns) *)

Inductive pyval :=
  | VNone
  | VStr (s : str)
  | VInt (n : Z)
  | VFloat (q : Q).

(** ** The Qdrant server behind [qdrant_client] (external collaborator)

    Points are keyed by id, so an upsert replaces the point with the same
    id. Every call raises when the server cannot be reached. The similarity
    of two vectors under the configured distance is a function of the
    server. *)

Module Qdrant.

Record PointStruct := {
  id : str;
  vector : list Q;
  payload : gmap str pyval
}.

(** [FieldCondition(key=..., match=MatchValue(value=...))] *)
Record FieldCondition := {
  key : str;
  match_value : str
}.

(** [Filter(must=conditions)] *)
Record Filter := { must : list FieldCondition }.

Inductive PointsSelector :=
  | PointIdsList (points : list str)
  | FilterSelector (filter : Filter).

Record ScoredPoint := {
  hit_id : str;
  score : Q;
  hit_payload : gmap str pyval
}.

Record Collection := {
  vectors_size : Z;
  points : gmap str PointStruct
}.

Record Server := {
  reachable : bool;
  collections : gmap str Collection;
  similarity : list Q -> list Q -> Q
}.

Definition with_collections (s : Server) (cs : gmap str Collection) : Server :=
  {| reachable := reachable s; collections := cs; similarity := similarity s |}.

Definition condition_holds (p : gmap str pyval) (c : FieldCondition) : bool :=
  match p !! key c with
  | Some (VStr v) => bool_decide (v = match_value c)
  | _ => false
  end.

(** A filter is a conjunction; no filter matches every point. *)
Definition matches (f : option Filter) (p : gmap str pyval) : bool :=
  match f with
  | None => true
  | Some f => forallb (condition_holds p) (must f)
  end.

Definition available (s : Server) : outcome unit :=
  if reachable s then Returned tt else Raised (Exception (py "connection refused")).

Definition get_collection (s : Server) (name : str) : outcome Collection :=
  _ ← available s;
  match collections s !! name with
  | Some c => Returned c
  | None => Raised (Exception (py "collection not found"))
  end.

Definition get_collections (s : Server) : outcome (list str) :=
  _ ← available s;
  mret ((map_to_list (collections s)).*1).

Definition delete_collection (s : Server) (name : str) : outcome Server :=
  _ ← available s;
  mret (with_collections s (delete name (collections s))).

Definition create_collection (s : Server) (name : str) (size : Z) : outcome Server :=
  _ ← available s;
  match collections s !! name with
  | Some _ => Raised (Exception (py "collection already exists"))
  | None =>
      mret (with_collections s
              (<[name := {| vectors_size := size; points := ∅ |}]> (collections s)))
  end.

Definition upsert (s : Server) (name : str) (pts : list PointStruct) : outcome Server :=
  c ← get_collection s name;
  if forallb (fun p => len (vector p) =? vectors_size c) pts then
    let stored := foldl (fun m p => <[id p := p]> m) (points c) pts in
    mret (with_collections s
            (<[name := {| vectors_size := vectors_size c; points := stored |}]>
               (collections s)))
  else Raised (Exception (py "vector dimension error")).

Definition selected (sel : PointsSelector) (p : PointStruct) : bool :=
  match sel with
  | PointIdsList ids => bool_decide (id p ∈ ids)
  | FilterSelector f => matches (Some f) (payload p)
  end.

Definition delete_points (s : Server) (name : str) (sel : PointsSelector)
    : outcome Server :=
  c ← get_collection s name;
  let kept := filter (fun kv => selected sel kv.2 = false) (points c) in
  mret (with_collections s
          (<[name := {| vectors_size := vectors_size c; points := kept |}]>
             (collections s))).

(** Insertion into a list sorted by descending score. *)
Fixpoint insert_hit (h : ScoredPoint) (l : list ScoredPoint) : list ScoredPoint :=
  match l with
  | [] => [h]
  | x :: rest =>
      if Qle_bool (score x) (score h) then h :: l else x :: insert_hit h rest
  end.

Definition sort_hits (l : list ScoredPoint) : list ScoredPoint :=
  foldr insert_hit [] l.

Definition score_point (s : Server) (query_vector : list Q) (p : PointStruct)
    : ScoredPoint :=
  {| hit_id := id p;
     score := similarity s query_vector (vector p);
     hit_payload := payload p |}.

Definition search (s : Server) (name : str) (query_vector : list Q)
    (query_filter : option Filter) (limit : Z) (score_threshold : Q)
    : outcome (list ScoredPoint) :=
  c ← get_collection s name;
  let candidates :=
    filter (fun p => matches query_filter (payload p) = true)
      ((map_to_list (points c)).*2) in
  let scored := score_point s query_vector <$> candidates in
  let kept := filter (fun h => Qle_bool score_threshold (score h) = true) scored in
  mret (take (Z.to_nat limit) (sort_hits kept)).

End Qdrant.

(** ** The vector database service ([app/services/vector_db.py]) *)

Module VectorDB.

(** A loaded [SentenceTransformer]. *)
Record SentenceTransformer := { encode : str -> list Q }.

(** What the constructors called by [connect] do in this deployment. *)
Record Environment := {
  new_client : outcome unit;
  load_model : str -> outcome SentenceTransformer
}.

(** The attributes of a [VectorDatabase] object. [client] is the handle to
    the server ([None] until [connect] has run). *)
Record VectorDatabase := {
  client : option unit;
  embedding_model : option SentenceTransformer;
  collection_name : str;
  dimension : Z  (* [self.embedding_dimension] *)
}.

(** [__init__] *)
Definition new (settings : Settings) : VectorDatabase :=
  {| client := None;
     embedding_model := None;
     collection_name := qdrant_collection_name settings;
     dimension := embedding_dimension settings |}.

Definition set_client (self : VectorDatabase) (c : unit) : VectorDatabase :=
  {| client := Some c;
     embedding_model := embedding_model self;
     collection_name := collection_name self;
     dimension := dimension self |}.

Definition set_embedding_model (self : VectorDatabase) (m : SentenceTransformer)
    : VectorDatabase :=
  {| client := client self;
     embedding_model := Some m;
     collection_name := collection_name self;
     dimension := dimension self |}.

Definition set_dimension (self : VectorDatabase) (d : Z) : VectorDatabase :=
  {| client := client self;
     embedding_model := embedding_model self;
     collection_name := collection_name self;
     dimension := d |}.

(** The body of the [try] of [connect]: the object as the body leaves it,
    and whether the body ran to its end. *)
Definition connect (settings : Settings) (env : Environment)
    (self : VectorDatabase) : VectorDatabase * bool :=
  match new_client env with
  | Raised _ => (self, false)
  | Returned c =>
      let self := set_client self c in
      match load_model env (embedding_model_name settings) with
      | Raised _ => (self, false)
      | Returned m =>
          let self := set_embedding_model self m in
          let test_embedding := encode m (py "test") in
          let actual_dimension := len test_embedding in
          if bool_decide (actual_dimension ≠ embedding_dimension settings) then
            (* logger.warning("... Updating to actual dimension.") *)
            (set_dimension self actual_dimension, true)
          else (self, true)
      end
  end.

(** Using [self.client] when it is still [None] raises. *)
Definition the_client (self : VectorDatabase) : outcome unit :=
  match client self with
  | Some c => Returned c
  | None => Raised (Exception (py "'NoneType' object has no attribute"))
  end.

Definition create_collection_try (self : VectorDatabase) (server : Qdrant.Server)
    (recreate : bool) : Qdrant.Server * outcome bool :=
  match (_ ← the_client self; Qdrant.get_collections server) with
  | Raised e => (server, Raised e)
  | Returned collection_names =>
      let after_delete :=
        if recreate && bool_decide (collection_name self ∈ collection_names) then
          match Qdrant.delete_collection server (collection_name self) with
          | Returned server' =>
              Returned (server',
                        list_difference collection_names [collection_name self])
          | Raised e => Raised e
          end
        else Returned (server, collection_names) in
      match after_delete with
      | Raised e => (server, Raised e)
      | Returned (server, collection_names) =>
          if bool_decide (collection_name self ∉ collection_names) then
            match Qdrant.create_collection server (collection_name self)
                    (dimension self) with
            | Returned server' => (server', Returned true)
            | Raised e => (server, Raised e)
            end
          else
            (* logger.info("Collection already exists") *)
            (server, Returned true)
      end
  end.

Definition create_collection (self : VectorDatabase) (server : Qdrant.Server)
    (recreate : bool) : Qdrant.Server * bool :=
  match create_collection_try self server recreate with
  | (server, Returned b) => (server, b)
  | (server, Raised _) => (server, false)
  end.

Definition generate_embedding (self : VectorDatabase) (text : str)
    : outcome (list Q) :=
  match embedding_model self with
  | None => Raised (Exception (py "Embedding model not initialized. Call connect() first."))
  | Some m => Returned (encode m text)
  end.

Definition generate_embeddings_batch (self : VectorDatabase) (texts : list str)
    : outcome (list (list Q)) :=
  match embedding_model self with
  | None => Raised (Exception (py "Embedding model not initialized. Call connect() first."))
  | Some m => Returned (encode m <$> texts)
  end.

(** [zip(chunk_ids, embeddings, texts, metadatas)] and the point built from
    each tuple; in the payload the keys of [metadata] win over ["text"]. *)
Fixpoint make_points (chunk_ids : list str) (embeddings : list (list Q))
    (texts : list str) (metadatas : list (gmap str pyval))
    : list Qdrant.PointStruct :=
  match chunk_ids, embeddings, texts, metadatas with
  | chunk_id :: ids, embedding :: es, text :: ts, metadata :: ms =>
      {| Qdrant.id := chunk_id;
         Qdrant.vector := embedding;
         Qdrant.payload := metadata ∪ {[ py "text" := VStr text ]} |}
      :: make_points ids es ts ms
  | _, _, _, _ => []
  end.

Definition upsert_chunks_try (self : VectorDatabase) (server : Qdrant.Server)
    (chunk_ids : list str) (texts : list str) (metadatas : list (gmap str pyval))
    : outcome Qdrant.Server :=
  embeddings ← generate_embeddings_batch self texts;
  let points := make_points chunk_ids embeddings texts metadatas in
  _ ← the_client self;
  Qdrant.upsert server (collection_name self) points.

Definition upsert_chunks (self : VectorDatabase) (server : Qdrant.Server)
    (chunk_ids : list str) (texts : list str) (metadatas : list (gmap str pyval))
    : Qdrant.Server * bool :=
  match upsert_chunks_try self server chunk_ids texts metadatas with
  | Returned server' => (server', true)
  | Raised _ => (server, false)
  end.

(** The dictionary [search] builds for each hit. *)
Record SearchResult := {
  chunk_id : str;
  score : Q;
  rank : Z;
  text : pyval;
  document_id : pyval;
  project_id : pyval;
  page_number : pyval;
  metadata : gmap str pyval
}.

(** [d.get(k)] and [d.get(k, default)] *)
Definition get (d : gmap str pyval) (k : string) : pyval :=
  default VNone (d !! py k).

Definition get_or (d : gmap str pyval) (k : string) (dflt : pyval) : pyval :=
  default dflt (d !! py k).

(** Truthiness of an [Optional[str]] argument. *)
Definition given (o : option str) : option str :=
  match o with
  | Some s => if truthy s then Some s else None
  | None => None
  end.

(** Lines 219-240: the conditions, and the filter only if there are any. *)
Definition conditions (project_id document_id : option str)
    : list Qdrant.FieldCondition :=
  match given project_id with
  | Some v => [{| Qdrant.key := py "project_id"; Qdrant.match_value := v |}]
  | None => []
  end ++
  match given document_id with
  | Some v => [{| Qdrant.key := py "document_id"; Qdrant.match_value := v |}]
  | None => []
  end.

Definition query_filter (project_id document_id : option str)
    : option Qdrant.Filter :=
  let conditions := conditions project_id document_id in
  if truthy conditions then Some {| Qdrant.must := conditions |} else None.

Definition format_result (i : nat) (hit : Qdrant.ScoredPoint) : SearchResult :=
  {| chunk_id := Qdrant.hit_id hit;
     score := Qdrant.score hit;
     rank := Z.of_nat i + 1;
     text := get_or (Qdrant.hit_payload hit) "text" (VStr []);
     document_id := get (Qdrant.hit_payload hit) "document_id";
     project_id := get (Qdrant.hit_payload hit) "project_id";
     page_number := get (Qdrant.hit_payload hit) "page_number";
     metadata := Qdrant.hit_payload hit |}.

(** The body of the [try] of [search]. *)
Definition search_try (self : VectorDatabase) (server : Qdrant.Server)
    (query_text : str) (project_id document_id : option str)
    (top_k : Z) (score_threshold : Q) : outcome (list SearchResult) :=
  query_embedding ← generate_embedding self query_text;
  let query_filter := query_filter project_id document_id in
  _ ← the_client self;
  search_results ← Qdrant.search server (collection_name self) query_embedding
                      query_filter top_k score_threshold;
  mret (imap format_result search_results).

(** [search]: a raised exception is logged and an empty list returned. *)
Definition search (self : VectorDatabase) (server : Qdrant.Server)
    (query_text : str) (project_id document_id : option str)
    (top_k : Z) (score_threshold : Q) : list SearchResult :=
  match search_try self server query_text project_id document_id top_k
          score_threshold with
  | Returned results => results
  | Raised _ => []
  end.

Definition delete_chunks (self : VectorDatabase) (server : Qdrant.Server)
    (chunk_ids : list str) : Qdrant.Server * bool :=
  match (_ ← the_client self;
         Qdrant.delete_points server (collection_name self)
           (Qdrant.PointIdsList chunk_ids)) with
  | Returned server' => (server', true)
  | Raised _ => (server, false)
  end.

Definition delete_by_document (self : VectorDatabase) (server : Qdrant.Server)
    (document_id : str) : Qdrant.Server * bool :=
  match (_ ← the_client self;
         Qdrant.delete_points server (collection_name self)
           (Qdrant.FilterSelector
              {| Qdrant.must :=
                   [{| Qdrant.key := py "document_id";
                       Qdrant.match_value := document_id |}] |})) with
  | Returned server' => (server', true)
  | Raised _ => (server, false)
  end.

End VectorDB.

(** ** The language-model service ([app/services/llm.py]) *)

Module LLM.

(** The dictionaries of [context_chunks]. *)
Record ContextChunk := {
  text : str;
  score : Q;
  rank : Z
}.

(** The two provider clients (external collaborators): the answer to a
    chat request, or the exception the request raised. *)
Record Providers := {
  openai_chat : str -> str -> str -> outcome str;  (* model, system, user *)
  anthropic_messages : str -> str -> outcome str   (* model, user *)
}.

(** The loop of [generate_rag_prompt], with [i] counting from [1]. *)
Fixpoint context_lines (i : nat) (context_chunks : list ContextChunk) : str :=
  match context_chunks with
  | [] => []
  | chunk :: rest =>
      py "[" ++ py (pretty i) ++ py "] " ++ text chunk ++ nn
      ++ context_lines (S i) rest
  end.

Definition generate_rag_prompt (query : str) (context_chunks : list ContextChunk)
    : str :=
  py "You are a helpful assistant that answers questions based on the provided context."
  ++ nn
  ++ py "Context from documents:" ++ nn
  ++ context_lines 1 context_chunks
  ++ [10%N] ++ py "Question: " ++ query ++ nn
  ++ py "Please provide a comprehensive answer based on the context above. "
  ++ py "If the answer cannot be found in the context, say so. "
  ++ py "Include relevant citations using [1], [2], etc. to reference the context chunks.".

Definition generate_response_openai (llm : Providers) (query : str)
    (context_chunks : list ContextChunk) (model : str) : outcome str :=
  let prompt := generate_rag_prompt query context_chunks in
  openai_chat llm model
    (py "You are a helpful assistant that answers questions based on provided context.")
    prompt.

Definition generate_response_anthropic (llm : Providers) (query : str)
    (context_chunks : list ContextChunk) : outcome str :=
  let prompt := generate_rag_prompt query context_chunks in
  anthropic_messages llm (py "claude-3-5-sonnet-20241022") prompt.

(** [s.startswith(prefix)] *)
Definition startswith (s prefix : str) : bool :=
  bool_decide (take (length prefix) s = prefix).

Definition no_context_message : str :=
  py "I couldn't find any relevant information in the documents to answer your question.".

Definition generate_rag_response (llm : Providers) (query : str)
    (context_chunks : list ContextChunk) (model : str) : outcome str :=
  if negb (truthy context_chunks) then Returned no_context_message
  else if bool_decide (model = py "claude-3-5-sonnet") || startswith model (py "claude")
  then generate_response_anthropic llm query context_chunks
  else generate_response_openai llm query context_chunks model.

End LLM.

(** ** The relational store ([app/models]) *)

Module Models.

Inductive DocumentStatus := UPLOADING | PROCESSING | DOC_COMPLETED | DOC_FAILED.

Inductive QueryStatus := PENDING | QUERY_PROCESSING | COMPLETED | FAILED.

Record Project := {
  document_count : Z;
  query_count : Z
}.

Record Document := {
  doc_project_id : str;
  filename : str;
  file_type : str;
  file_size : Z;
  doc_status : DocumentStatus;
  processing_error : option str;  (* a column that no route writes *)
  chunk_count : Z
}.

Record Chunk := {
  chunk_document_id : str;
  content : str;
  chunk_index : Z;
  chunk_metadata : gmap str pyval
}.

Record Query := {
  query_id : str;
  query_project_id : str;
  query_text : str;
  response_text : str;
  model_used : str;
  citations : list (gmap str pyval);
  status : QueryStatus
}.

(** The tables, keyed by primary key. *)
Record Database := {
  projects : gmap str Project;
  documents : gmap str Document;
  chunks : gmap str Chunk;
  queries : gmap str Query
}.

End Models.

(** ** The application state the routes run in *)

Record World := {
  settings : Settings;
  db : Models.Database;
  qdrant : Qdrant.Server;
  vector_db : VectorDB.VectorDatabase;
  llm : LLM.Providers;
  uuids : nat  (* how many ids [uuid4] has handed out *)
}.

Definition set_db (w : World) (d : Models.Database) : World :=
  {| settings := settings w; db := d; qdrant := qdrant w;
     vector_db := vector_db w; llm := llm w; uuids := uuids w |}.

Definition set_qdrant (w : World) (s : Qdrant.Server) : World :=
  {| settings := settings w; db := db w; qdrant := s;
     vector_db := vector_db w; llm := llm w; uuids := uuids w |}.

(** [str(uuid4())]: a fresh identifier at each call. *)
Definition uuid4 (w : World) : str * World :=
  (py ("uuid-" +:+ pretty (uuids w)),
   {| settings := settings w; db := db w; qdrant := qdrant w;
      vector_db := vector_db w; llm := llm w; uuids := S (uuids w) |}).

(** ** Document routes ([app/api/routes/documents.py]) *)

Module Documents.
Import Models.

(** The uploaded file: its name, declared type, size once saved, and what
    text extraction yields for it. *)
Record UploadFile := {
  upload_filename : str;
  content_type : str;
  saved_size : Z;
  extracted : outcome str
}.

Definition allowed_types : list str :=
  [py "application/pdf";
   py "application/vnd.openxmlformats-officedocument.wordprocessingml.document";
   py "application/vnd.openxmlformats-officedocument.spreadsheetml.sheet";
   py "text/plain"].

Definition put_project (d : Database) (k : str) (p : Project) : Database :=
  {| projects := <[k := p]> (projects d); documents := documents d;
     chunks := chunks d; queries := queries d |}.

Definition put_document (d : Database) (k : str) (doc : Document) : Database :=
  {| projects := projects d; documents := <[k := doc]> (documents d);
     chunks := chunks d; queries := queries d |}.

Definition put_chunk (d : Database) (k : str) (c : Chunk) : Database :=
  {| projects := projects d; documents := documents d;
     chunks := <[k := c]> (chunks d); queries := queries d |}.

Definition with_status (doc : Document) (s : DocumentStatus) (n : Z) : Document :=
  {| doc_project_id := doc_project_id doc; filename := filename doc;
     file_type := file_type doc; file_size := file_size doc;
     doc_status := s; processing_error := processing_error doc;
     chunk_count := n |}.

(** The object [upload_document] returns: the id and the stored row of the
    document, and the attribute [error_message] that the [except] branch
    sets on the object. The table has no such column, so the message is not
    stored. *)
Record DocumentObject := {
  object_id : str;
  row : Document;
  error_message : option str
}.

(** [db_document.uploaded_at]: [Document] has no attribute of that name, so
    reading it raises. *)
Definition uploaded_at (document : Document) : outcome unit :=
  Raised (Exception (py "'Document' object has no attribute 'uploaded_at'")).

(** The loop of lines 147-171: one [Chunk] row per chunk, and the three lists
    handed to the vector database. *)
Fixpoint store_chunks (w : World) (file_id project_id file_name : str)
    (chunks_data : list Chunking.ChunkDict)
    : World * (list str * list str * list (gmap str pyval)) :=
  match chunks_data with
  | [] => (w, ([], [], []))
  | chunk_data :: rest =>
      let '(cid, w) := uuid4 w in
      let chunk :=
        {| chunk_document_id := file_id;
           content := Chunking.content chunk_data;
           chunk_index := Chunking.chunk_index chunk_data;
           chunk_metadata :=
             {[ py "start_para" := VInt (Chunking.start_para chunk_data);
                py "end_para" := VInt (Chunking.end_para chunk_data);
                py "char_count" := VInt (Chunking.char_count chunk_data) ]} |} in
      let w := set_db w (put_chunk (db w) cid chunk) in
      let metadata : gmap str pyval :=
        {[ py "document_id" := VStr file_id;
           py "project_id" := VStr project_id;
           py "filename" := VStr file_name;
           py "chunk_index" := VInt (chunk_index chunk) ]} in
      let '(w, (ids, texts, metadatas)) :=
        store_chunks w file_id project_id file_name rest in
      (w, (cid :: ids, content chunk :: texts, metadata :: metadatas))
  end.

(** The [except] branch of lines 187-192: the status becomes failed, the
    message goes on the object, and the commit stores what the session
    holds. *)
Definition processing_failed (w : World) (file_id : str) (doc : Document)
    (e : exn) : World * DocumentObject :=
  let doc := with_status doc DOC_FAILED (chunk_count doc) in
  (set_db w (put_document (db w) file_id doc),
   {| object_id := file_id; row := doc; error_message := Some (str_of_exn e) |}).

(** The [try] block of lines 133-192, run on the document row [doc]. After
    the chunks are stored, line 181 reads [uploaded_at]. *)
Definition process_uploaded (w : World) (project_id file_id : str)
    (file : UploadFile) (doc : Document) : World * DocumentObject :=
  let doc := with_status doc PROCESSING (chunk_count doc) in
  let w := set_db w (put_document (db w) file_id doc) in
  match Chunking.process_document (settings w) (extracted file) with
  | Returned chunks_data =>
      let '(w, (chunk_ids, chunk_texts, chunk_metadatas)) :=
        store_chunks w file_id project_id (upload_filename file) chunks_data in
      let w :=
        if truthy chunk_ids then
          set_qdrant w
            (VectorDB.upsert_chunks (vector_db w) (qdrant w)
               chunk_ids chunk_texts chunk_metadatas).1
        else w in
      let doc := with_status doc DOC_COMPLETED (len chunks_data) in
      match uploaded_at doc with
      | Returned _ =>
          (set_db w (put_document (db w) file_id doc),
           {| object_id := file_id; row := doc; error_message := None |})
      | Raised e => processing_failed w file_id doc e
      end
  | Raised e => processing_failed w file_id doc e
  end.

(** [upload_document]: the document object, or the HTTP error. *)
Definition upload_document (w : World) (project_id : str) (file : UploadFile)
    : World * outcome DocumentObject :=
  match projects (db w) !! project_id with
  | None => (w, Raised (HTTPException 404 (py "Project not found")))
  | Some project =>
      if bool_decide (content_type file ∉ allowed_types) then
        (w, Raised (HTTPException 400
                      (py "File type not supported: " ++ content_type file)))
      else
        let '(file_id, w) := uuid4 w in
        if saved_size file >? max_file_size (settings w) then
          (w, Raised (HTTPException 400
                        (py "File too large. Maximum size is "
                         ++ py (pretty (max_file_size (settings w)))
                         ++ py " bytes")))
        else
          let db_document :=
            {| doc_project_id := project_id;
               filename := upload_filename file;
               file_type := content_type file;
               file_size := saved_size file;
               doc_status := UPLOADING;
               processing_error := None;
               chunk_count := 0 |} in
          let project :=
            {| document_count := document_count project + 1;
               query_count := query_count project |} in
          let w :=
            set_db w (put_project (put_document (db w) file_id db_document)
                        project_id project) in
          let '(w, document) :=
            process_uploaded w project_id file_id file db_document in
          (w, Returned document)
  end.

(** [delete_document]: the document row goes, and with it (delete cascade)
    its chunk rows. *)
Definition delete_document (w : World) (project_id document_id : str)
    : World * outcome unit :=
  match documents (db w) !! document_id with
  | Some document =>
      if bool_decide (doc_project_id document = project_id) then
        let projects' :=
          match projects (db w) !! project_id with
          | Some project =>
              <[project_id :=
                  {| document_count := Z.max 0 (document_count project - 1);
                     query_count := query_count project |}]> (projects (db w))
          | None => projects (db w)
          end in
        (set_db w
           {| projects := projects';
              documents := delete document_id (documents (db w));
              chunks :=
                filter (fun kv => chunk_document_id kv.2 ≠ document_id)
                  (chunks (db w));
              queries := queries (db w) |},
         Returned tt)
      else (w, Raised (HTTPException 404 (py "Document not found")))
  | None => (w, Raised (HTTPException 404 (py "Document not found")))
  end.

(** [get_documents]: the rows of the project's documents (in no particular
    order), or 404. *)
Definition get_documents (w : World) (project_id : str)
    : outcome (list (str * Document)) :=
  match projects (db w) !! project_id with
  | Some _ =>
      Returned (map_to_list
                  (filter (fun kv => doc_project_id kv.2 = project_id)
                     (documents (db w))))
  | None => Raised (HTTPException 404 (py "Project not found"))
  end.

End Documents.

(** ** Query routes ([app/api/routes/queries.py]) *)

Module Queries.
Import Models.

(** The request, as [app/schemas/query.py] declares it. *)
Record QueryRequest := {
  query_text : str;
  model : option str;
  max_chunks : option Z
}.

Definition optional {A} (f : A -> pyval) (x : option A) : pyval :=
  match x with Some a => f a | None => VNone end.

(** [query_request.<name>]: the value of a declared field; for any other
    name the object raises [AttributeError]. *)
Definition getattr (query_request : QueryRequest) (name : string) : outcome pyval :=
  if bool_decide (name = "query_text"%string) then
    Returned (VStr (query_text query_request))
  else if bool_decide (name = "model"%string) then
    Returned (optional VStr (model query_request))
  else if bool_decide (name = "max_chunks"%string) then
    Returned (optional VInt (max_chunks query_request))
  else
    Raised (Exception (py "'QueryRequest' object has no attribute '"
                       ++ py name ++ py "'")).

(** What a value read from the request is worth as an integer, a float or a
    string argument. *)
Definition as_int (v : pyval) : option Z :=
  match v with VInt n => Some n | _ => None end.

Definition as_float (v : pyval) : option Q :=
  match v with VFloat q => Some q | VInt n => Some (n # 1) | _ => None end.

Definition as_str (v : pyval) : str :=
  match v with VStr s => s | _ => [] end.

(** [x or d] *)
Definition int_or (x : option Z) (d : Z) : Z :=
  match x with
  | Some n => if n =? 0 then d else n
  | None => d
  end.

Definition float_or (x : option Q) (d : Q) : Q :=
  match x with
  | Some q => if Qeq_bool q 0 then d else q
  | None => d
  end.

Definition str_or (x : option str) (d : str) : str :=
  match x with
  | Some s => if truthy s then s else d
  | None => d
  end.

Definition no_results_message : str :=
  py "I couldn't find any relevant information in your documents to answer this question.".

Definition degraded_prefix : str :=
  py "Found relevant information but encountered an error generating the response: ".

(** The dictionary appended to [citations] (lines 109-116). *)
Definition citation (chunk_key : str) (chunk : Chunk) (document_key : str)
    (document : Document) (result : VectorDB.SearchResult) : gmap str pyval :=
  {[ py "chunk_id" := VStr chunk_key;
     py "document_id" := VStr document_key;
     py "document_name" := VStr (filename document);
     py "page_number" := VectorDB.page_number result;
     py "similarity_score" := VFloat (VectorDB.score result);
     py "text" :=
       VStr (if len (content chunk) >? 200
             then slice_to (content chunk) 200 ++ py "..."
             else content chunk) ]}.

(** [docs_dict.get(result["document_id"])] *)
Definition find_document (d : Database) (v : pyval) : option (str * Document) :=
  match v with
  | VStr k => (fun doc => (k, doc)) <$> documents d !! k
  | _ => None
  end.

(** The loop of lines 98-116 from index [i] on: the context and the
    citations of the hits whose chunk and document rows exist. *)
Fixpoint context_and_citations (d : Database) (i : nat)
    (search_results : list VectorDB.SearchResult)
    : list LLM.ContextChunk * list (gmap str pyval) :=
  match search_results with
  | [] => ([], [])
  | result :: rest =>
      let '(context_chunks, citations) := context_and_citations d (S i) rest in
      match chunks d !! VectorDB.chunk_id result,
            find_document d (VectorDB.document_id result) with
      | Some chunk, Some (document_key, document) =>
          ({| LLM.text := content chunk;
              LLM.score := VectorDB.score result;
              LLM.rank := Z.of_nat i + 1 |} :: context_chunks,
           citation (VectorDB.chunk_id result) chunk document_key document result
           :: citations)
      | _, _ => (context_chunks, citations)
      end
  end.

(** The search of lines 71-76, given the values read from the request. *)
Definition run_search (w : World) (query_text project_id : str)
    (top_k : option Z) (similarity_threshold : option Q)
    : list VectorDB.SearchResult :=
  VectorDB.search (vector_db w) (qdrant w) query_text
    (Some project_id) None
    (int_or top_k 5)
    (float_or similarity_threshold (7 # 10)).

(** Lines 78-131: the answer text and the citations. *)
Definition answer (w : World) (query_request : QueryRequest)
    (search_results : list VectorDB.SearchResult)
    : str * list (gmap str pyval) :=
  if negb (truthy search_results) then (no_results_message, [])
  else
    let '(context_chunks, citations) :=
      context_and_citations (db w) 0 search_results in
    let response_text :=
      match LLM.generate_rag_response (llm w) (query_text query_request)
              context_chunks (str_or (model query_request) (py "gpt-4")) with
      | Returned response_text => response_text
      | Raised e => degraded_prefix ++ str_of_exn e
      end in
    (response_text, citations).

(** Lines 133-153: the query row is stored and returned. *)
Definition store_query (w : World) (query_request : QueryRequest)
    (project_id : str) (project : Project)
    (response_text : str) (citations : list (gmap str pyval))
    : World * Query :=
  let '(query_id, w) := uuid4 w in
  let db_query :=
    {| query_id := query_id;
       query_project_id := project_id;
       Models.query_text := query_text query_request;
       response_text := response_text;
       model_used := str_or (model query_request) (py "gpt-4");
       citations := citations;
       status := COMPLETED |} in
  let project :=
    {| document_count := document_count project;
       query_count := query_count project + 1 |} in
  (set_db w
     {| projects := <[project_id := project]> (projects (db w));
        documents := documents (db w);
        chunks := chunks (db w);
        queries := <[query_id := db_query]> (queries (db w)) |},
   db_query).

(** The body of the [try] of [submit_query]. It reads [project_id], [top_k]
    and [similarity_threshold] from the request. *)
Definition submit_query_try (w : World) (query_request : QueryRequest)
    : World * outcome Query :=
  match getattr query_request "project_id" with
  | Raised e => (w, Raised e)
  | Returned project_id =>
      match projects (db w) !! as_str project_id with
      | None => (w, Raised (HTTPException 404 (py "Project not found")))
      | Some project =>
          match getattr query_request "top_k" with
          | Raised e => (w, Raised e)
          | Returned top_k =>
              match getattr query_request "similarity_threshold" with
              | Raised e => (w, Raised e)
              | Returned similarity_threshold =>
                  let search_results :=
                    run_search w (query_text query_request) (as_str project_id)
                      (as_int top_k) (as_float similarity_threshold) in
                  let '(response_text, citations) :=
                    answer w query_request search_results in
                  let '(w, db_query) :=
                    store_query w query_request (as_str project_id) project
                      response_text citations in
                  (w, Returned db_query)
              end
          end
      end
  end.

(** [submit_query]: an HTTP error raised in the body is passed on; any other
    exception rolls the session back and becomes a 500. *)
Definition submit_query (w : World) (query_request : QueryRequest)
    : World * outcome Query :=
  match submit_query_try w query_request with
  | (w', Returned db_query) => (w', Returned db_query)
  | (_, Raised (HTTPException status_code detail)) =>
      (w, Raised (HTTPException status_code detail))
  | (_, Raised (Exception _)) =>
      (w, Raised (HTTPException 500 (py "Failed to process query")))
  end.

(** [get_query] *)
Definition get_query (w : World) (query_id : str) : outcome Query :=
  match queries (db w) !! query_id with
  | Some query => Returned query
  | None => Raised (HTTPException 404 (py "Query not found"))
  end.

End Queries.

(** ** Project routes ([app/api/routes/projects.py]) *)

Module Projects.
Import Models.

(** [get_project] *)
Definition get_project (w : World) (project_id : str) : outcome Project :=
  match projects (db w) !! project_id with
  | Some project => Returned project
  | None => Raised (HTTPException 404 (py "Project not found"))
  end.

(** Whether the chunk row belongs to a document of the project. *)
Definition chunk_of_project (d : Database) (project_id : str) (c : Chunk) : bool :=
  match documents d !! chunk_document_id c with
  | Some document => bool_decide (doc_project_id document = project_id)
  | None => false
  end.

(** [delete_project]: the project row goes, and with it (delete cascade) its
    documents, their chunks, and its queries. *)
Definition delete_project (w : World) (project_id : str) : World * outcome unit :=
  match projects (db w) !! project_id with
  | Some project =>
      (set_db w
         {| projects := delete project_id (projects (db w));
            documents :=
              filter (fun kv => doc_project_id kv.2 ≠ project_id) (documents (db w));
            chunks :=
              filter (fun kv => chunk_of_project (db w) project_id kv.2 = false)
                (chunks (db w));
            queries :=
              filter (fun kv => query_project_id kv.2 ≠ project_id) (queries (db w)) |},
       Returned tt)
  | None => (w, Raised (HTTPException 404 (py "Project not found")))
  end.

End Projects.

(** ** Application start-up ([app/main.py]) *)

Module Main.

(** The part of [lifespan] that concerns the vector database: [connect] on
    the global object, and [create_collection] if that succeeded. *)
Definition lifespan (settings : Settings) (env : VectorDB.Environment)
    (server : Qdrant.Server) : VectorDB.VectorDatabase * Qdrant.Server :=
  let '(vector_db, connected) :=
    VectorDB.connect settings env (VectorDB.new settings) in
  if connected then
    (vector_db, (VectorDB.create_collection vector_db server false).1)
  else (vector_db, server).

End Main.

(** ** What is indexed and what is stored for a document *)

(** The ids of the points of the collection whose payload carries the
    document id. *)
Definition indexed_ids (server : Qdrant.Server) (name document_id : str) : gset str :=
  match Qdrant.collections server !! name with
  | Some c =>
      dom (filter
             (fun kv =>
                Qdrant.condition_holds (Qdrant.payload kv.2)
                  {| Qdrant.key := py "document_id";
                     Qdrant.match_value := document_id |} = true)
             (Qdrant.points c))
  | None => ∅
  end.

(** The ids of the chunk rows of the document: the passages of its last
    chunking. *)
Definition chunk_ids (d : Models.Database) (document_id : str) : gset str :=
  dom (filter (fun kv => Models.chunk_document_id kv.2 = document_id)
         (Models.chunks d)).

(** ** Concrete inputs used by the examples *)

Module Examples.
Import Chunking.

(** The text of the chunking scenario: three paragraphs of seven
    characters. *)
Definition scenario_text : str :=
  py "Para A." ++ nn ++ py "Para B." ++ nn ++ py "Para C.".

Definition scenario_first_chunk : ChunkDict :=
  {| content := py "Para A." ++ nn ++ py "Para B.";
     chunk_index := 0; start_para := 0; end_para := 2; char_count := 16 |}.

(** A text of two one-letter paragraphs, and settings whose size limit is
    zero. *)
Definition two_letters : str := py "a" ++ nn ++ py "b".

Definition zero_size_settings : Settings :=
  {| chunk_size := 0;
     chunk_overlap := 1;
     embedding_model_name := embedding_model_name default_settings;
     embedding_dimension := 384;
     qdrant_collection_name := qdrant_collection_name default_settings;
     max_file_size := max_file_size default_settings |}.

(** Two paragraphs as long as a size limit of 15. *)
Definition two_full_paragraphs : str :=
  py "aaaaaaaaaaaaaaa" ++ nn ++ py "bbbbbbbbbbbbbbb".

(** Three paragraphs, the first with blanks before its last letter, so that
    the overlap carried into the second buffer starts with blanks. *)
Definition blanks_text : str :=
  py "aaaa     b" ++ nn ++ py "c" ++ nn ++ py "dd".

(** A toy deployment: texts are embedded in one dimension by their length
    in tenths, and the similarity is the dot product, so that a passage of
    nine characters scores 0.9 against a query of ten characters. *)
Definition dot (a b : list Q) : Q :=
  Qred (foldr Qplus (0 # 1) (zip_with Qmult a b)).

Definition toy_model : VectorDB.SentenceTransformer :=
  {| VectorDB.encode := fun s => [Qred (Z.of_nat (length s) # 10)] |}.

Definition toy_env : VectorDB.Environment :=
  {| VectorDB.new_client := Returned tt;
     VectorDB.load_model := fun _ => Returned toy_model |}.

Definition toy_settings : Settings :=
  {| chunk_size := 1000;
     chunk_overlap := 200;
     embedding_model_name := py "toy";
     embedding_dimension := 1;
     qdrant_collection_name := py "documents";
     max_file_size := 50000000 |}.

Definition answering_llm : LLM.Providers :=
  {| LLM.openai_chat := fun _ _ _ => Returned (py "Nine, see [1].");
     LLM.anthropic_messages := fun _ _ => Returned (py "Nine, see [1].") |}.

Definition failing_llm : LLM.Providers :=
  {| LLM.openai_chat := fun _ _ _ => Raised (Exception (py "rate limit"));
     LLM.anthropic_messages := fun _ _ => Raised (Exception (py "rate limit")) |}.

Definition empty_server : Qdrant.Server :=
  {| Qdrant.reachable := true;
     Qdrant.collections := ∅;
     Qdrant.similarity := dot |}.

(** The application after start-up ([connect], then [create_collection]),
    with two projects and no document. *)
Definition connected : VectorDB.VectorDatabase :=
  (VectorDB.connect toy_settings toy_env (VectorDB.new toy_settings)).1.

Definition started : World :=
  {| settings := toy_settings;
     db := {| Models.projects :=
                {[ py "p1" := {| Models.document_count := 0; Models.query_count := 0 |};
                   py "p2" := {| Models.document_count := 0; Models.query_count := 0 |} ]};
              Models.documents := ∅;
              Models.chunks := ∅;
              Models.queries := ∅ |};
     qdrant := (VectorDB.create_collection connected empty_server false).1;
     vector_db := connected;
     llm := answering_llm;
     uuids := 0 |}.

Definition nine_chars : Documents.UploadFile :=
  {| Documents.upload_filename := py "nine.txt";
     Documents.content_type := py "text/plain";
     Documents.saved_size := 9;
     Documents.extracted := Returned (py "nine char") |}.

Definition eight_chars : Documents.UploadFile :=
  {| Documents.upload_filename := py "eight.txt";
     Documents.content_type := py "text/plain";
     Documents.saved_size := 8;
     Documents.extracted := Returned (py "eight ch") |}.

(** One document uploaded to project [p1]: the document is ["uuid-0"] and
    its only chunk ["uuid-1"]. *)
Definition uploaded : World :=
  (Documents.upload_document started (py "p1") nine_chars).1.

(** Files that [upload_document] rejects: a picture, and a text file of 60
    million bytes. *)
Definition picture : Documents.UploadFile :=
  {| Documents.upload_filename := py "a.png";
     Documents.content_type := py "image/png";
     Documents.saved_size := 9;
     Documents.extracted := Returned (py "nine char") |}.

Definition huge_file : Documents.UploadFile :=
  {| Documents.upload_filename := py "huge.txt";
     Documents.content_type := py "text/plain";
     Documents.saved_size := 60000000;
     Documents.extracted := Returned (py "nine char") |}.


(** Then that document deleted again. *)
Definition deleted : World :=
  (Documents.delete_document uploaded (py "p1") (py "uuid-0")).1.

(** Then a second document uploaded, to project [p2]. *)
Definition two_projects : World :=
  (Documents.upload_document uploaded (py "p2") eight_chars).1.


(** The same application when the Qdrant server cannot be reached. *)
Definition unreachable (w : World) : World :=
  set_qdrant w
    {| Qdrant.reachable := false;
       Qdrant.collections := Qdrant.collections (qdrant w);
       Qdrant.similarity := Qdrant.similarity (qdrant w) |}.

Definition question : Queries.QueryRequest :=
  {| Queries.query_text := py "anything!!";
     Queries.model := None;
     Queries.max_chunks := Some 5 |}.

(** The hit the index reports for the chunk of the uploaded document, with
    a score of 0.9. *)
Definition one_hit : VectorDB.SearchResult :=
  {| VectorDB.chunk_id := py "uuid-1";
     VectorDB.score := 9 # 10;
     VectorDB.rank := 1;
     VectorDB.text := VStr (py "nine char");
     VectorDB.document_id := VStr (py "uuid-0");
     VectorDB.project_id := VStr (py "p1");
     VectorDB.page_number := VNone;
     VectorDB.metadata :=
       {[ py "text" := VStr (py "nine char");
          py "document_id" := VStr (py "uuid-0");
          py "project_id" := VStr (py "p1");
          py "filename" := VStr (py "nine.txt");
          py "chunk_index" := VInt 0 ]} |}.

(** A model with three dimensions, against the 384 of the default
    settings. *)
Definition three_dimensions : VectorDB.Environment :=
  {| VectorDB.new_client := Returned tt;
     VectorDB.load_model := fun _ =>
       Returned {| VectorDB.encode := fun _ => [1 # 1; 0 # 1; 0 # 1] |} |}.

(** A server that already holds the collection, created for 384
    dimensions. *)
Definition server_384 : Qdrant.Server :=
  {| Qdrant.reachable := true;
     Qdrant.collections :=
       {[ py "documents" := {| Qdrant.vectors_size := 384; Qdrant.points := ∅ |} ]};
     Qdrant.similarity := dot |}.

End Examples.

(** ** Results about strings *)

Section Strings.
Implicit Types s t : str.

Lemma len_app {A} (a b : list A) : len (a ++ b) = len a + len b.
Proof. unfold len. rewrite length_app. lia. Qed.

Lemma len_sep s t : len (s ++ nn ++ t) = len s + 2 + len t.
Proof. unfold len. rewrite !length_app. simpl. lia. Qed.

Lemma len_nonneg {A} (a : list A) : 0 <= len a.
Proof. unfold len. lia. Qed.

Lemma truthy_true {A} (a : list A) : truthy a = true <-> a ≠ [].
Proof. destruct a; simpl; split; congruence. Qed.

Lemma truthy_len {A} (a : list A) : truthy a = true -> 1 <= len a.
Proof. destruct a; simpl; [congruence|]. unfold len. simpl. lia. Qed.

Lemma lstrip_suffix s : lstrip s `suffix_of` s.
Proof.
  induction s as [|c s IH]; simpl; [done|].
  destruct (isspace c); [by apply suffix_cons_r | done].
Qed.

Lemma lstrip_length s : (length (lstrip s) <= length s)%nat.
Proof. apply suffix_length, lstrip_suffix. Qed.

Lemma strip_length s : (length (strip s) <= length s)%nat.
Proof.
  unfold strip, rstrip. rewrite length_rev.
  etrans; [apply lstrip_length|]. rewrite length_rev. apply lstrip_length.
Qed.

Lemma len_strip s : len (strip s) <= len s.
Proof. unfold len. pose proof (strip_length s). lia. Qed.

(** A string that starts with a non-space character is its own [lstrip]. *)
Lemma lstrip_solid c s : isspace c = false -> lstrip (c :: s) = c :: s.
Proof. intros H. simpl. by rewrite H. Qed.

(** What [lstrip] returns is empty or starts with a non-space character. *)
Lemma lstrip_head s : lstrip s = [] ∨ ∃ c t, lstrip s = c :: t ∧ isspace c = false.
Proof.
  induction s as [|c s IH]; simpl; [by left|].
  destruct (isspace c) eqn:E; [done|]. right. eauto.
Qed.

Lemma ends_solid_app t s : ends_solid s -> ends_solid (t ++ s).
Proof.
  intros (u & c & -> & H). exists (t ++ u), c. by rewrite (assoc_L (++)).
Qed.

Lemma strip_ends_solid s : strip s ≠ [] -> ends_solid (strip s).
Proof.
  unfold strip, rstrip. intros Hne.
  destruct (lstrip_head (rev (lstrip s))) as [E | (c & t & E & Hc)].
  - rewrite E in Hne. done.
  - rewrite E. simpl. by exists (rev t), c.
Qed.

Lemma lstrip_ends_solid s : ends_solid s -> ends_solid (lstrip s).
Proof.
  intros (t & c & -> & Hc). induction t as [|d t IH]; simpl.
  - rewrite Hc. by exists [], c.
  - destruct (isspace d); [done|]. by exists (d :: t), c.
Qed.

Lemma strip_of_ends_solid s : ends_solid s -> strip s ≠ [].
Proof.
  intros H. destruct (lstrip_ends_solid s H) as (t & c & E & Hc).
  unfold strip, rstrip. rewrite E, rev_app_distr. simpl. rewrite Hc.
  simpl. intros Hnil. by apply app_eq_nil in Hnil as [_ ?].
Qed.

Lemma last_chars_length k s :
  0 <= k -> len (last_chars k s) = Z.min k (len s).
Proof. intros Hk. unfold last_chars, len. rewrite length_drop. lia. Qed.

Lemma last_chars_suffix k s : last_chars k s `suffix_of` s.
Proof. apply suffix_drop. Qed.

Lemma last_chars_all k s : len s <= k -> last_chars k s = s.
Proof.
  unfold last_chars, len. intros H.
  replace (length s - Z.to_nat k)%nat with 0%nat by lia. done.
Qed.
End Strings.

(** ** Results about the chunker *)

Section ChunkerBounds.
Import Chunking.
Variables size overlap : Z.
Variable paras : list str.

Lemma bounded_le n m : m <= n -> bounded size overlap paras n -> bounded size overlap paras m.
Proof.
  intros Hle [H | (p & Hp & H)]; [left; lia|].
  right. exists p. split; [done | lia].
Qed.

Lemma overlap_text_length cur :
  0 < overlap -> len (overlap_text overlap cur) <= overlap.
Proof.
  intros Hpos. unfold overlap_text.
  destruct (len cur >? overlap) eqn:E; [|lia].
  unfold slice_from. replace (- overlap <? 0) with true by lia.
  unfold len in *. rewrite length_drop. lia.
Qed.

Lemma loop_body_bounded idx p st :
  0 < size -> 0 < overlap -> p ∈ paras ->
  state_bounded size overlap paras st -> state_bounded size overlap paras (loop_body size overlap idx p st).
Proof.
  intros Hsize Hov Hp [Hcur Hchunks]. unfold loop_body, closes, state_bounded.
  destruct (len (current_chunk st) + len p >? size) eqn:Hgt;
    destruct (truthy (current_chunk st)) eqn:Ht;
    cbn [andb current_chunk chunks close_chunk]; (split; [|try done]).
  - right. exists p. split; [done|]. rewrite len_sep.
    pose proof (overlap_text_length (current_chunk st) Hov). lia.
  - apply Forall_app. split; [done|]. constructor; [|constructor].
    cbn [content close_chunk]. eapply bounded_le; [apply len_strip | done].
  - right. exists p. split; [done | lia].
  - left. rewrite len_sep. lia.
  - right. exists p. split; [done | lia].
Qed.

Lemma loop_bounded rest : ∀ idx st,
  0 < size -> 0 < overlap -> rest ⊆ paras ->
  state_bounded size overlap paras st -> state_bounded size overlap paras (loop size overlap rest idx st).
Proof.
  induction rest as [|p rest IH]; intros idx st Hsize Hov Hsub Hst; simpl.
  - done.
  - apply IH; [done | done | set_solver |].
    apply loop_body_bounded; [done | done | set_solver | done].
Qed.

Lemma finish_bounded n st :
  state_bounded size overlap paras st -> Forall (fun c => bounded size overlap paras (len (content c))) (finish n st).
Proof.
  intros [Hcur Hchunks]. unfold finish.
  destruct (truthy (strip (current_chunk st))); [|done].
  apply Forall_app. split; [done|]. constructor; [|constructor]. simpl.
  eapply bounded_le; [apply len_strip | done].
Qed.

End ChunkerBounds.

Section ChunkerResults.
Import Chunking.

Lemma paragraph_solid text p :
  p ∈ paragraphs text -> p ≠ [] ∧ ends_solid p.
Proof.
  unfold paragraphs. intros [Ht Hin]%list_elem_of_filter.
  apply truthy_true in Ht. split; [done|].
  apply list_elem_of_fmap in Hin as (q & -> & _). by apply strip_ends_solid.
Qed.

Lemma overlap_text_last_chars overlap cur :
  0 < overlap -> overlap_text overlap cur = last_chars overlap cur.
Proof.
  intros Hov. unfold overlap_text.
  destruct (len cur >? overlap) eqn:E.
  - unfold slice_from, last_chars. replace (- overlap <? 0) with true by lia.
    f_equal. unfold len in *. lia.
  - symmetry. apply last_chars_all. lia.
Qed.

(** With a size limit of zero or less, every paragraph after the first
    closes a chunk. *)
Lemma loop_nonpositive size overlap rest : ∀ idx st,
  size <= 0 ->
  Forall (fun p => p ≠ [] ∧ ends_solid p) rest ->
  current_chunk st ≠ [] -> ends_solid (current_chunk st) ->
  let st' := loop size overlap rest idx st in
  length (chunks st') = (length (chunks st) + length rest)%nat
  ∧ ends_solid (current_chunk st').
Proof.
  induction rest as [|p rest IH]; intros idx st Hsize Hall Hne Hsolid; simpl.
  - split; [lia | done].
  - apply Forall_cons in Hall as [[Hp Hps] Hall].
    assert (closes size (current_chunk st) p = true) as Hc.
    { unfold closes. apply truthy_true in Hne, Hp.
      pose proof (truthy_len _ Hne). pose proof (truthy_len _ Hp).
      rewrite Hne. apply andb_true_iff. split; [lia | done]. }
    specialize (IH (idx + 1) (loop_body size overlap idx p st) Hsize Hall).
    unfold loop_body in IH |- *. rewrite Hc in IH |- *.
    cbn [current_chunk chunks] in IH.
    destruct IH as [IH1 IH2].
    + intros Hnil. apply app_eq_nil in Hnil as [_ Hnil]. discriminate Hnil.
    + by do 2 apply ends_solid_app.
    + split; [|done]. rewrite IH1, length_app. simpl. lia.
Qed.

End ChunkerResults.

Import Chunking Examples.

Section ChunkerShape.
Variables size overlap : Z.
Variable paras : list str.

Lemma starts_from_length p buffer :
  0 <= overlap -> starts_from overlap p buffer ->
  len buffer <= overlap + 2 + len p.
Proof.
  intros Hov [-> | (tail & Htail & ->)]; [lia|]. rewrite len_sep. lia.
Qed.

Lemma closed_chunk_shaped cur index para_idx :
  0 <= overlap -> buffer_shaped size overlap paras cur ->
  chunk_shaped size overlap paras (close_chunk cur index para_idx).
Proof.
  intros Hov [Hfit | (p & Hp & Hstart)]; unfold chunk_shaped;
    cbn [Chunking.content close_chunk].
  - left. pose proof (len_strip cur). lia.
  - right. exists p, cur. split; [done|]. split; [done|]. split; [done|].
    pose proof (len_strip cur). pose proof (starts_from_length p cur Hov Hstart).
    lia.
Qed.

Lemma loop_body_shaped idx p st :
  0 < size -> 0 < overlap -> p ∈ paras ->
  buffer_shaped size overlap paras (current_chunk st) ->
  Forall (chunk_shaped size overlap paras) (Chunking.chunks st) ->
  buffer_shaped size overlap paras
    (current_chunk (loop_body size overlap idx p st))
  ∧ Forall (chunk_shaped size overlap paras)
      (Chunking.chunks (loop_body size overlap idx p st)).
Proof.
  intros Hsize Hov Hp Hcur Hchunks. unfold loop_body, closes.
  destruct (len (current_chunk st) + len p >? size) eqn:Hgt;
    destruct (truthy (current_chunk st)) eqn:Ht;
    cbn [andb current_chunk Chunking.chunks]; (split; [|try done]).
  - right. exists p. split; [done|]. right.
    exists (overlap_text overlap (current_chunk st)). split; [|done].
    by apply overlap_text_length.
  - apply Forall_app. split; [done|]. constructor; [|constructor].
    apply closed_chunk_shaped; [lia | done].
  - right. exists p. split; [done|]. by left.
  - left. rewrite len_sep. lia.
  - right. exists p. split; [done|]. by left.
Qed.

Lemma loop_shaped rest : ∀ idx st,
  0 < size -> 0 < overlap -> rest ⊆ paras ->
  buffer_shaped size overlap paras (current_chunk st) ->
  Forall (chunk_shaped size overlap paras) (Chunking.chunks st) ->
  buffer_shaped size overlap paras (current_chunk (loop size overlap rest idx st))
  ∧ Forall (chunk_shaped size overlap paras)
      (Chunking.chunks (loop size overlap rest idx st)).
Proof.
  induction rest as [|p rest IH]; intros idx st Hsize Hov Hsub Hcur Hchunks; simpl.
  - done.
  - assert (p ∈ paras) as Hp by (apply Hsub; by left).
    destruct (loop_body_shaped idx p st Hsize Hov Hp Hcur Hchunks).
    apply IH; [done | done | | done | done].
    intros q Hq. apply Hsub. by right.
Qed.

End ChunkerShape.

(** C3, as amended. For a positive size limit and a positive overlap, every
    chunk is at most [size + 2] characters long (the separator joining two
    paragraphs is not counted by the size test), except a chunk whose
    buffer started from one paragraph [p], alone or behind the overlap
    text: such a chunk is that buffer, trimmed, and has at most
    [overlap + 2 + len p] characters. *)
Theorem chunk_length_bound settings text size_arg overlap_arg c :
  let size := default (chunk_size settings) size_arg in
  let overlap := default (chunk_overlap settings) overlap_arg in
  0 < size -> 0 < overlap ->
  c ∈ hierarchical_chunking settings text size_arg overlap_arg ->
  len (Chunking.content c) <= size + 2
  ∨ ∃ p buffer,
      p ∈ paragraphs text
      ∧ (buffer = p ∨ ∃ tail, len tail <= overlap ∧ buffer = tail ++ nn ++ p)
      ∧ Chunking.content c = strip buffer
      ∧ len (Chunking.content c) <= overlap + 2 + len p.
Proof.
  intros size overlap Hsize Hov Hin.
  assert (Forall (chunk_shaped size overlap (paragraphs text))
            (hierarchical_chunking settings text size_arg overlap_arg)) as Hall.
  { unfold hierarchical_chunking. fold size overlap.
    destruct (loop_shaped size overlap (paragraphs text) (paragraphs text) 0 init)
      as [Hcur Hchunks]; [done | done | done | | constructor |].
    { left. change (len (current_chunk init)) with 0. lia. }
    unfold finish. destruct (truthy _); [|done].
    apply Forall_app. split; [done|]. constructor; [|constructor].
    apply (closed_chunk_shaped size overlap (paragraphs text)
             (current_chunk (loop size overlap (paragraphs text) 0 init))
             (next_index (loop size overlap (paragraphs text) 0 init))
             (len (paragraphs text))); [lia | done]. }
  rewrite Forall_forall in Hall. exact (Hall c Hin).
Qed.

Lemma chunk_length_bound_witness :
  len (Chunking.content scenario_first_chunk) <= 15 + 2
  ∨ ∃ p buffer,
      p ∈ paragraphs scenario_text
      ∧ (buffer = p ∨ ∃ tail, len tail <= 5 ∧ buffer = tail ++ nn ++ p)
      ∧ Chunking.content scenario_first_chunk = strip buffer
      ∧ len (Chunking.content scenario_first_chunk) <= 5 + 2 + len p.
Proof.
  apply (chunk_length_bound default_settings scenario_text (Some 15) (Some 5)
           scenario_first_chunk).
  - simpl. lia.
  - simpl. lia.
  - vm_compute. left.
Defined.

(** C3, as stated, fails twice. On the scenario of the design itself, with
    a size limit of 15, no paragraph is longer than the limit, yet the first
    chunk, two paragraphs joined by the separator, has 16 characters. And on
    two paragraphs of 15 characters with an overlap of 14, the second chunk,
    seeded with the overlap text, has 31 characters. *)
Lemma joined_chunk_exceeds_size :
  (∃ c, c ∈ hierarchical_chunking default_settings scenario_text (Some 15) (Some 5)
        ∧ content c = py "Para A." ++ nn ++ py "Para B."
        ∧ len (content c) = 16
        ∧ ¬ len (content c) <= 15
        ∧ ∀ p, p ∈ paragraphs scenario_text -> len p <= 15)
  ∧ content <$> hierarchical_chunking default_settings two_full_paragraphs
                  (Some 15) (Some 14)
    = [py "aaaaaaaaaaaaaaa"; py "aaaaaaaaaaaaaa" ++ nn ++ py "bbbbbbbbbbbbbbb"]
  ∧ len <$> paragraphs two_full_paragraphs = [15; 15]
  ∧ len (py "aaaaaaaaaaaaaa" ++ nn ++ py "bbbbbbbbbbbbbbb") = 31.
Proof.
  split; [|repeat split; vm_compute; reflexivity].
  exists scenario_first_chunk. split; [vm_compute; left|].
  split; [reflexivity|]. split; [reflexivity|]. split; [vm_compute; congruence|].
  intros p Hp. vm_compute in Hp.
  repeat (apply elem_of_cons in Hp as [-> | Hp]; [vm_compute; congruence|]).
  by apply elem_of_nil in Hp.
Qed.

(** C7, as amended. The chunker has no failure path: whatever the size and
    overlap, [process_document] returns the chunks of every extracted text.
    With a size limit of zero or less the chunker returns exactly one chunk
    per paragraph. *)
Theorem nonpositive_size_one_chunk_per_paragraph settings text size_arg overlap_arg :
  default (chunk_size settings) size_arg <= 0 ->
  length (hierarchical_chunking settings text size_arg overlap_arg)
  = length (paragraphs text)
  ∧ process_document settings (Returned text)
    = Returned (hierarchical_chunking settings text None None).
Proof.
  intros Hsize. split; [|reflexivity]. unfold hierarchical_chunking.
  pose proof (fun p => paragraph_solid text p) as Hsolid.
  destruct (paragraphs text) as [|p rest] eqn:E; [reflexivity|].
  assert (Forall (fun p => p ≠ [] ∧ ends_solid p) (p :: rest)) as Hall.
  { apply Forall_forall. intros q Hq. by apply Hsolid. }
  apply Forall_cons in Hall as [[Hp Hps] Hall].
  cbn [loop]. unfold loop_body at 1. unfold closes.
  change (current_chunk init) with (@nil N). rewrite andb_false_r.
  cbn [truthy chunks next_index init].
  edestruct (loop_nonpositive (default (chunk_size settings) size_arg)
               (default (chunk_overlap settings) overlap_arg) rest (0 + 1)
               {| chunks := []; current_chunk := p; next_index := 0 |})
    as [Hlen Hcur]; [done | done | done | done |].
  unfold finish. apply strip_of_ends_solid, truthy_true in Hcur.
  rewrite Hcur, length_app, Hlen. simpl. lia.
Qed.

Lemma nonpositive_size_one_chunk_per_paragraph_witness :
  length (hierarchical_chunking zero_size_settings two_letters None None)
  = length (paragraphs two_letters)
  ∧ process_document zero_size_settings (Returned two_letters)
    = Returned (hierarchical_chunking zero_size_settings two_letters None None).
Proof.
  apply (nonpositive_size_one_chunk_per_paragraph zero_size_settings two_letters
           None None).
  simpl. lia.
Defined.

(** C7, as stated, fails: called with a size limit of zero the chunker
    returns two chunks, and [process_document] returns them as its result,
    where the design has an [InvalidInput] failure. *)
Lemma zero_size_returns_chunks :
  content <$> hierarchical_chunking default_settings two_letters (Some 0) (Some 1)
  = [py "a"; py "a" ++ nn ++ py "b"]
  ∧ process_document zero_size_settings (Returned two_letters)
    = Returned (hierarchical_chunking default_settings two_letters (Some 0) (Some 1))
  ∧ ∀ e, process_document zero_size_settings (Returned two_letters) ≠ Raised e.
Proof.
  split; [vm_compute; reflexivity|]. split; [reflexivity|]. intros e. discriminate.
Qed.

(** C8, as amended. When the chunker closes a chunk and the overlap is
    positive, the next buffer is the last [overlap] characters of the closed
    buffer, taken before trimming (the whole buffer if it has no more than
    [overlap] characters), then one separator, then the paragraph that
    triggered the close. *)
Theorem close_seeds_next_buffer size overlap idx paragraph st :
  0 < overlap ->
  closes size (current_chunk st) paragraph = true ->
  current_chunk (loop_body size overlap idx paragraph st)
  = last_chars overlap (current_chunk st) ++ nn ++ paragraph
  ∧ len (last_chars overlap (current_chunk st))
    = Z.min overlap (len (current_chunk st)).
Proof.
  intros Hov Hc. unfold loop_body. rewrite Hc. cbn [current_chunk].
  rewrite overlap_text_last_chars by done.
  split; [done|]. apply last_chars_length. lia.
Qed.

Lemma close_seeds_next_buffer_witness :
  current_chunk
    (loop_body 15 5 2 (py "Para C.")
       (loop 15 5 [py "Para A."; py "Para B."] 0 init))
  = last_chars 5 (py "Para A." ++ nn ++ py "Para B.") ++ nn ++ py "Para C."
  ∧ len (last_chars 5 (py "Para A." ++ nn ++ py "Para B.")) = Z.min 5 16.
Proof.
  apply (close_seeds_next_buffer 15 5 2 (py "Para C.")
           (loop 15 5 [py "Para A."; py "Para B."] 0 init)).
  - lia.
  - vm_compute. reflexivity.
Defined.

(** C8, as stated, fails where trimming matters. On [blanks_text] with size
    10 and overlap 6, the second buffer is five blanks and three more
    characters; the chunk closed from it has the trimmed content
    ["b\n\nc"], shorter than the overlap, but the third buffer starts with
    the last six characters of the untrimmed buffer, two blanks included. *)
Lemma seed_taken_from_untrimmed_buffer :
  let st := loop 10 6 (take 2 (paragraphs blanks_text)) 0 init in
  let st' := loop_body 10 6 2 (py "dd") st in
  paragraphs blanks_text = [py "aaaa     b"; py "c"; py "dd"]
  ∧ closes 10 (current_chunk st) (py "dd") = true
  ∧ content <$> last (chunks st') = Some (py "b" ++ nn ++ py "c")
  ∧ current_chunk st' = py "  b" ++ nn ++ py "c" ++ nn ++ py "dd"
  ∧ current_chunk st'
    ≠ last_chars 6 (py "b" ++ nn ++ py "c") ++ nn ++ py "dd".
Proof.
  repeat split; try (vm_compute; reflexivity). vm_compute. discriminate.
Qed.

(** With an overlap of zero the slice [current_chunk[-0:]] is the whole
    buffer, so each chunk repeats everything before it. *)
Example zero_overlap_carries_whole_buffer :
  content <$> hierarchical_chunking default_settings scenario_text (Some 10) (Some 0)
  = [py "Para A.";
     py "Para A." ++ nn ++ py "Para B.";
     py "Para A." ++ nn ++ py "Para B." ++ nn ++ py "Para C."].
Proof. vm_compute. reflexivity. Qed.

(** ** Results about the vector database service *)

(** C5, as amended. When the model loads and the dimension of its test
    embedding differs from the configured one, [connect] adopts the actual
    dimension as the dimension of the index and reports success. *)
Theorem connect_adopts_actual_dimension settings env self c m :
  VectorDB.new_client env = Returned c ->
  VectorDB.load_model env (embedding_model_name settings) = Returned m ->
  len (VectorDB.encode m (py "test")) ≠ embedding_dimension settings ->
  VectorDB.connect settings env self
  = ({| VectorDB.client := Some c;
        VectorDB.embedding_model := Some m;
        VectorDB.collection_name := VectorDB.collection_name self;
        VectorDB.dimension := len (VectorDB.encode m (py "test")) |},
     true).
Proof.
  intros Hc Hm Hne. unfold VectorDB.connect. rewrite Hc, Hm.
  rewrite bool_decide_eq_true_2 by done. reflexivity.
Qed.

Lemma connect_adopts_actual_dimension_witness :
  VectorDB.connect default_settings three_dimensions (VectorDB.new default_settings)
  = ({| VectorDB.client := Some tt;
        VectorDB.embedding_model :=
          Some {| VectorDB.encode := fun _ => [1 # 1; 0 # 1; 0 # 1] |};
        VectorDB.collection_name := py "rag_documents";
        VectorDB.dimension := 3 |},
     true).
Proof.
  apply (connect_adopts_actual_dimension default_settings three_dimensions
           (VectorDB.new default_settings) tt
           {| VectorDB.encode := fun _ => [1 # 1; 0 # 1; 0 # 1] |}).
  - reflexivity.
  - reflexivity.
  - vm_compute. discriminate.
Defined.

(** C5, as stated, fails: with 384 dimensions configured and a model of
    three, [connect] returns [True] and the object carries dimension 3. *)
Lemma dimension_change_not_fatal :
  let r := VectorDB.connect default_settings three_dimensions
             (VectorDB.new default_settings) in
  embedding_dimension default_settings = 384
  ∧ r.2 = true
  ∧ VectorDB.dimension r.1 = 3.
Proof. vm_compute. repeat split. Qed.

Lemma collection_listed (server : Qdrant.Server) name :
  name ∈ (map_to_list (Qdrant.collections server)).*1
  <-> is_Some (Qdrant.collections server !! name).
Proof.
  rewrite list_elem_of_fmap. split.
  - intros ([k c] & -> & Hin). apply elem_of_map_to_list in Hin. by exists c.
  - intros [c Hc]. exists (name, c). split; [done|]. by apply elem_of_map_to_list.
Qed.

(** C6, as amended. Without [recreate], creating the collection when one
    with the same name exists changes nothing on the server and reports
    success, whatever the dimension of the existing collection. *)
Theorem create_collection_existing self server c :
  VectorDB.client self = Some tt ->
  Qdrant.reachable server = true ->
  Qdrant.collections server !! VectorDB.collection_name self = Some c ->
  VectorDB.create_collection self server false = (server, true).
Proof.
  intros Hcl Hup Hc.
  unfold VectorDB.create_collection, VectorDB.create_collection_try,
    VectorDB.the_client, Qdrant.get_collections, Qdrant.available.
  rewrite Hcl, Hup. cbn [mbind outcome_bind mret outcome_ret andb].
  rewrite bool_decide_eq_false_2; [done|].
  intros Hnot. apply Hnot, collection_listed. by exists c.
Qed.

Lemma create_collection_existing_witness :
  VectorDB.create_collection connected server_384 false = (server_384, true).
Proof.
  apply (create_collection_existing connected server_384
           {| Qdrant.vectors_size := 384; Qdrant.points := ∅ |}).
  - reflexivity.
  - reflexivity.
  - vm_compute. reflexivity.
Defined.

(** C6, as stated, fails: the object works with one dimension, the existing
    collection was created for 384, and [create_collection] returns [True]
    leaving the 384 in place; no exception is raised inside it either. *)
Lemma different_dimension_reported_as_success :
  VectorDB.dimension connected = 1
  ∧ Qdrant.vectors_size <$> Qdrant.collections server_384 !! py "documents" = Some 384
  ∧ VectorDB.create_collection_try connected server_384 false
    = (server_384, Returned true)
  ∧ VectorDB.create_collection connected server_384 false = (server_384, true).
Proof.
  split; [vm_compute; reflexivity|]. split; [vm_compute; reflexivity|].
  assert (VectorDB.create_collection_try connected server_384 false
          = (server_384, Returned true)) as H.
  { unfold VectorDB.create_collection_try.
    change (VectorDB.the_client connected) with (Returned tt).
    cbn [mbind outcome_bind mret outcome_ret andb Qdrant.get_collections
         Qdrant.available Qdrant.reachable server_384].
    rewrite bool_decide_eq_false_2; [done|].
    intros Hnot. apply Hnot. vm_compute. left. }
  split; [exact H|]. unfold VectorDB.create_collection. by rewrite H.
Qed.

Lemma given_empty : VectorDB.given (Some []) = None.
Proof. reflexivity. Qed.

Lemma given_nonempty c s : VectorDB.given (Some (c :: s)) = Some (c :: s).
Proof. reflexivity. Qed.

Lemma query_filter_only_for_truthy_ids :
  (∀ document_id,
     VectorDB.query_filter (Some []) document_id
     = VectorDB.query_filter None document_id)
  ∧ (∀ project_id,
       VectorDB.query_filter project_id (Some [])
       = VectorDB.query_filter project_id None)
  ∧ VectorDB.query_filter None None = None
  ∧ (∀ c s,
       VectorDB.query_filter (Some (c :: s)) None
       = Some {| Qdrant.must :=
                   [{| Qdrant.key := py "project_id";
                       Qdrant.match_value := c :: s |}] |})
  ∧ (∀ c s,
       VectorDB.query_filter None (Some (c :: s))
       = Some {| Qdrant.must :=
                   [{| Qdrant.key := py "document_id";
                       Qdrant.match_value := c :: s |}] |}).
Proof.
  split; [reflexivity|]. split; [|repeat split].
  intros [[|c s]|]; reflexivity.
Qed.

Lemma condition_holds_iff payload key value :
  Qdrant.condition_holds payload
    {| Qdrant.key := key; Qdrant.match_value := value |} = true
  <-> payload !! key = Some (VStr value).
Proof.
  unfold Qdrant.condition_holds. cbn [Qdrant.key Qdrant.match_value].
  destruct (payload !! key) as [[| v | |]|]; try (split; congruence).
  rewrite bool_decide_eq_true. split; congruence.
Qed.

Lemma filter_no_filter (l : list Qdrant.PointStruct) :
  filter (fun p => Qdrant.matches None (Qdrant.payload p) = true) l = l.
Proof.
  induction l as [|p l IH]; [done|].
  rewrite filter_cons_True by done. by rewrite IH.
Qed.

Lemma filter_one_condition cond (l : list Qdrant.PointStruct) :
  filter
    (fun p =>
       Qdrant.matches (Some {| Qdrant.must := [cond] |}) (Qdrant.payload p) = true)
    l
  = filter (fun p => Qdrant.condition_holds (Qdrant.payload p) cond = true) l.
Proof.
  apply list_filter_iff. intros p.
  cbn [Qdrant.matches Qdrant.must forallb]. by rewrite andb_true_r.
Qed.

(** What [search] returns on a connected object and a reachable server that
    holds the collection, in terms of the filter it passes. *)
Lemma search_connected self server m c query_text project_id document_id top_k
    score_threshold :
  VectorDB.embedding_model self = Some m ->
  VectorDB.client self = Some tt ->
  Qdrant.reachable server = true ->
  Qdrant.collections server !! VectorDB.collection_name self = Some c ->
  VectorDB.search self server query_text project_id document_id top_k
    score_threshold
  = imap VectorDB.format_result
      (take (Z.to_nat top_k)
         (Qdrant.sort_hits
            (filter (fun h => Qle_bool score_threshold (Qdrant.score h) = true)
               (Qdrant.score_point server (VectorDB.encode m query_text)
                  <$> filter
                        (fun p =>
                           Qdrant.matches
                             (VectorDB.query_filter project_id document_id)
                             (Qdrant.payload p) = true)
                        ((map_to_list (Qdrant.points c)).*2))))).
Proof.
  intros Hm Hcl Hup Hc.
  unfold VectorDB.search, VectorDB.search_try, VectorDB.generate_embedding,
    VectorDB.the_client, Qdrant.search, Qdrant.get_collection, Qdrant.available.
  rewrite Hm, Hcl, Hup. cbn [mbind outcome_bind mret outcome_ret].
  rewrite Hc. reflexivity.
Qed.

(** C10. On a connected object and a reachable server that holds the
    collection, [search] ranks the points it is scoped to: those that reach
    the threshold, by descending score, at most [top_k] of them. When the
    project id and the document id are each [None] or the empty string, the
    scope is every point of the collection, of whatever project. A non-empty
    project id (with no document id) restricts the scope to the points whose
    payload carries that very project id, and a non-empty document id (with
    no project id) to the points whose payload carries that document id. *)
Theorem search_scope_only_for_truthy_ids self server m c query_text top_k
    score_threshold :
  let all := (map_to_list (Qdrant.points c)).*2 in
  let ranked := fun candidates : list Qdrant.PointStruct =>
    imap VectorDB.format_result
      (take (Z.to_nat top_k)
         (Qdrant.sort_hits
            (filter (fun h => Qle_bool score_threshold (Qdrant.score h) = true)
               (Qdrant.score_point server (VectorDB.encode m query_text)
                  <$> candidates)))) in
  let carries := fun (key : string) (value : str) (p : Qdrant.PointStruct) =>
    Qdrant.condition_holds (Qdrant.payload p)
      {| Qdrant.key := py key; Qdrant.match_value := value |} in
  VectorDB.embedding_model self = Some m ->
  VectorDB.client self = Some tt ->
  Qdrant.reachable server = true ->
  Qdrant.collections server !! VectorDB.collection_name self = Some c ->
  (∀ project_id document_id,
     project_id = None ∨ project_id = Some [] ->
     document_id = None ∨ document_id = Some [] ->
     VectorDB.search self server query_text project_id document_id top_k
       score_threshold
     = ranked all)
  ∧ (∀ ch s document_id,
       document_id = None ∨ document_id = Some [] ->
       VectorDB.search self server query_text (Some (ch :: s)) document_id top_k
         score_threshold
       = ranked
           (filter (fun p => carries "project_id"%string (ch :: s) p = true) all))
  ∧ (∀ ch s project_id,
       project_id = None ∨ project_id = Some [] ->
       VectorDB.search self server query_text project_id (Some (ch :: s)) top_k
         score_threshold
       = ranked
           (filter (fun p => carries "document_id"%string (ch :: s) p = true) all))
  ∧ (∀ key value p,
       carries key value p = true
       <-> Qdrant.payload p !! py key = Some (VStr value)).
Proof.
  intros all ranked carries Hm Hcl Hup Hc.
  split; [|split; [|split]].
  - intros project_id document_id [-> | ->] [-> | ->];
      rewrite (search_connected self server m c) by done;
      change (VectorDB.query_filter _ _) with (@None Qdrant.Filter);
      by rewrite filter_no_filter.
  - intros ch s document_id [-> | ->];
      rewrite (search_connected self server m c) by done;
      change (VectorDB.query_filter _ _)
        with (Some {| Qdrant.must :=
                        [{| Qdrant.key := py "project_id";
                            Qdrant.match_value := ch :: s |}] |});
      by rewrite filter_one_condition.
  - intros ch s project_id [-> | ->];
      rewrite (search_connected self server m c) by done;
      change (VectorDB.query_filter _ _)
        with (Some {| Qdrant.must :=
                        [{| Qdrant.key := py "document_id";
                            Qdrant.match_value := ch :: s |}] |});
      by rewrite filter_one_condition.
  - intros key value p. apply condition_holds_iff.
Qed.

Lemma search_scope_only_for_truthy_ids_witness :
  VectorDB.project_id
    <$> VectorDB.search (vector_db two_projects) (qdrant two_projects)
          (py "anything!!") (Some []) None 5 (7 # 10)
  = [VStr (py "p1"); VStr (py "p2")]
  ∧ VectorDB.project_id
      <$> VectorDB.search (vector_db two_projects) (qdrant two_projects)
            (py "anything!!") (Some (py "p2")) (Some []) 5 (7 # 10)
    = [VStr (py "p2")].
Proof.
  destruct (Qdrant.collections (qdrant two_projects) !! py "documents")
    as [c|] eqn:Hc; [|vm_compute in Hc; discriminate].
  pose proof (search_scope_only_for_truthy_ids (vector_db two_projects)
                (qdrant two_projects) toy_model c (py "anything!!") 5 (7 # 10))
    as H.
  cbv zeta in H.
  destruct H as (Hall & Hproject & _).
  - vm_compute. reflexivity.
  - vm_compute. reflexivity.
  - vm_compute. reflexivity.
  - vm_compute. vm_compute in Hc. exact Hc.
  - vm_compute in Hc. injection Hc as <-. split.
    + rewrite (Hall (Some []) None (or_intror eq_refl) (or_introl eq_refl)).
      vm_compute. reflexivity.
    + change (py "p2") with (112%N :: py "2").
      rewrite (Hproject 112%N (py "2") (Some []) (or_intror eq_refl)).
      vm_compute. reflexivity.
Defined.

(** With documents of two projects indexed, a search for the empty project
    id returns the passages of both, and a search for ["p1"] only its own. *)
Example empty_project_id_searches_all_projects :
  VectorDB.project_id
    <$> VectorDB.search (vector_db two_projects) (qdrant two_projects)
          (py "anything!!") (Some []) None 5 (7 # 10)
  = [VStr (py "p1"); VStr (py "p2")]
  ∧ VectorDB.project_id
      <$> VectorDB.search (vector_db two_projects) (qdrant two_projects)
            (py "anything!!") (Some (py "p1")) None 5 (7 # 10)
    = [VStr (py "p1")].
Proof. split; vm_compute; reflexivity. Qed.

(** ** Results about the query route *)

Section SubmitQuery.
Import Models Queries.


(** The citations do not depend on the language model. *)
Lemma answer_citations w request search_results :
  search_results ≠ [] ->
  (answer w request search_results).2
  = (context_and_citations (db w) 0 search_results).2.
Proof.
  intros Hne. unfold answer. apply truthy_true in Hne. rewrite Hne.
  cbn [negb]. by destruct (context_and_citations (db w) 0 search_results).
Qed.

(** No citation has a ["rank"] key: its keys are the six of the literal. *)
Lemma citation_keys chunk_key chunk document_key document result :
  citation chunk_key chunk document_key document result !! py "rank" = None
  ∧ dom (citation chunk_key chunk document_key document result)
    = list_to_set [py "chunk_id"; py "document_id"; py "document_name";
                   py "page_number"; py "similarity_score"; py "text"].
Proof.
  unfold citation. split.
  - repeat (rewrite lookup_insert_ne by (vm_compute; discriminate)).
    apply lookup_singleton_ne. vm_compute. discriminate.
  - rewrite !dom_insert_L, dom_singleton_L. cbn [list_to_set foldr].
    set_solver.
Qed.

Lemma context_and_citations_no_rank d search_results : ∀ i,
  Forall (fun c : gmap str pyval => c !! py "rank" = None)
    (context_and_citations d i search_results).2.
Proof.
  induction search_results as [|result rest IH]; intros i; simpl; [constructor|].
  specialize (IH (S i)).
  destruct (context_and_citations d (S i) rest) as [ctx cits].
  destruct (chunks d !! VectorDB.chunk_id result) as [chunk|]; [|done].
  destruct (find_document d (VectorDB.document_id result)) as [[k doc]|]; [|done].
  simpl. constructor; [apply citation_keys | done].
Qed.

(** When the chunk and document rows of every hit exist, there is one
    citation per hit, in the order of the hits. *)
Lemma citations_one_per_hit d search_results : ∀ i,
  Forall (fun r => is_Some (chunks d !! VectorDB.chunk_id r)
                   ∧ is_Some (find_document d (VectorDB.document_id r)))
    search_results ->
  (fun c : gmap str pyval => c !! py "chunk_id")
    <$> (context_and_citations d i search_results).2
  = (fun r => Some (VStr (VectorDB.chunk_id r))) <$> search_results.
Proof.
  induction search_results as [|result rest IH]; intros i Hall; simpl; [done|].
  apply Forall_cons in Hall as [[[chunk Hchunk] [[k doc] Hdoc]] Hall].
  specialize (IH (S i) Hall).
  destruct (context_and_citations d (S i) rest) as [ctx cits].
  rewrite Hchunk, Hdoc. cbn [snd] in IH |- *. rewrite !fmap_cons, IH.
  apply (f_equal (fun x => x :: _)). unfold citation. apply lookup_insert_eq.
Qed.


End SubmitQuery.

Import Models Queries.

(** Every citation has the six keys of the literal, and no ["rank"]. *)
Lemma context_and_citations_keys d search_results : ∀ i,
  Forall
    (fun c : gmap str pyval =>
       c !! py "rank" = None
       ∧ dom c
         =@{gset str} list_to_set
                        [py "chunk_id"; py "document_id"; py "document_name";
                         py "page_number"; py "similarity_score"; py "text"])
    (context_and_citations d i search_results).2.
Proof.
  induction search_results as [|result rest IH]; intros i; simpl; [constructor|].
  specialize (IH (S i)).
  destruct (context_and_citations d (S i) rest) as [ctx cits].
  destruct (chunks d !! VectorDB.chunk_id result) as [chunk|]; [|done].
  destruct (find_document d (VectorDB.document_id result)) as [[k doc]|]; [|done].
  simpl. constructor; [apply citation_keys | done].
Qed.

(** The route reads [query_request.project_id] first, an attribute the
    request does not have: the body raises, and the handler turns that into
    a 500 after rolling the session back. *)
Lemma submit_query_raises w request :
  submit_query w request
  = (w, Raised (HTTPException 500 (py "Failed to process query"))).
Proof. reflexivity. Qed.






(** C9, evaluated on the scenario of one indexed passage whose hit scores
    0.9. No citation that the answer step builds has a ["rank"] entry: its
    keys are the chunk id, document id, document name, page number,
    similarity score and text. For the one hit, the context entry gets rank
    1 and there is one citation, without rank. The route itself answers the
    request with a 500. *)
Theorem single_citation_lacks_rank :
  (∀ w request search_results c,
     c ∈ (answer w request search_results).2 ->
     c !! py "rank" = None
     ∧ dom c
       =@{gset str} list_to_set
                      [py "chunk_id"; py "document_id"; py "document_name";
                       py "page_number"; py "similarity_score"; py "text"])
  ∧ VectorDB.rank one_hit = 1
  ∧ LLM.rank <$> (context_and_citations (db uploaded) 0 [one_hit]).1 = [1]
  ∧ (∃ c,
       (answer uploaded question [one_hit]).2 = [c]
       ∧ c !! py "chunk_id" = Some (VStr (py "uuid-1"))
       ∧ c !! py "similarity_score" = Some (VFloat (9 # 10))
       ∧ c !! py "rank" = None)
  ∧ submit_query uploaded question
    = (uploaded, Raised (HTTPException 500 (py "Failed to process query"))).
Proof.
  split; [|split; [reflexivity|split; [vm_compute; reflexivity|split]]].
  - intros w request search_results c Hc.
    destruct search_results as [|result rest]; [by apply elem_of_nil in Hc|].
    rewrite answer_citations in Hc by done.
    pose proof (context_and_citations_keys (db w) (result :: rest) 0) as Hall.
    rewrite Forall_forall in Hall. exact (Hall c Hc).
  - eexists. split; [vm_compute; reflexivity|].
    repeat split; vm_compute; reflexivity.
  - apply submit_query_raises.
Qed.

(** ** Results about the document routes *)

(** [delete_document] does not touch the vector index. *)
Lemma delete_document_keeps_index w project_id document_id :
  qdrant (Documents.delete_document w project_id document_id).1 = qdrant w.
Proof.
  unfold Documents.delete_document.
  destruct (documents (db w) !! document_id) as [document|]; [|done].
  by destruct (bool_decide (doc_project_id document = project_id)).
Qed.


(** [delete_by_document], which no route calls, does remove every point of
    the document. *)
Lemma delete_by_document_clears self server c document_id :
  VectorDB.client self = Some tt ->
  Qdrant.reachable server = true ->
  Qdrant.collections server !! VectorDB.collection_name self = Some c ->
  (VectorDB.delete_by_document self server document_id).2 = true
  ∧ indexed_ids (VectorDB.delete_by_document self server document_id).1
      (VectorDB.collection_name self) document_id = ∅.
Proof.
  intros Hcl Hup Hc.
  unfold VectorDB.delete_by_document, VectorDB.the_client, Qdrant.delete_points,
    Qdrant.get_collection, Qdrant.available.
  rewrite Hcl, Hup. cbn [mbind outcome_bind mret outcome_ret]. rewrite Hc.
  cbn [mbind outcome_bind mret outcome_ret fst snd]. split; [done|].
  unfold indexed_ids. cbn [Qdrant.collections Qdrant.with_collections].
  rewrite lookup_insert_eq. cbn [Qdrant.points].
  apply dom_empty_iff_L, map_empty. intros k.
  apply map_lookup_filter_None. right. intros p Hp Hcond.
  apply map_lookup_filter_Some in Hp as [_ Hsel].
  cbn [Qdrant.selected Qdrant.matches Qdrant.must forallb snd] in Hsel, Hcond.
  rewrite Hcond in Hsel. discriminate.
Qed.

(** C1, evaluated on an upload followed by the deletion. After the upload
    the index holds exactly the id of the document's chunk. The deletion
    succeeds and removes the document row and its chunk rows, but the point
    stays in the index, where a search still finds it. *)
Theorem deleted_document_stays_indexed :
  let name := py "documents" in
  let document_id := py "uuid-0" in
  elements (chunk_ids (db uploaded) document_id) = [py "uuid-1"]
  ∧ elements (indexed_ids (qdrant uploaded) name document_id) = [py "uuid-1"]
  ∧ (Documents.delete_document uploaded (py "p1") document_id).2 = Returned tt
  ∧ documents (db deleted) !! document_id = None
  ∧ elements (chunk_ids (db deleted) document_id) = []
  ∧ elements (indexed_ids (qdrant deleted) name document_id) = [py "uuid-1"]
  ∧ VectorDB.chunk_id
      <$> VectorDB.search (vector_db deleted) (qdrant deleted) (py "anything!!")
            (Some (py "p1")) None 5 (7 # 10)
    = [py "uuid-1"]
  ∧ elements
      (indexed_ids
         (VectorDB.delete_by_document (vector_db deleted) (qdrant deleted)
            document_id).1 name document_id) = [].
Proof. repeat split; vm_compute; reflexivity. Qed.

(** * Further results *)

(** ** Trimmed strings *)

Section Trimmed.
Implicit Types s t p : str.

Lemma strip_starts_solid s : strip s ≠ [] -> starts_solid (strip s).
Proof.
  unfold strip, rstrip. intros Hne.
  destruct (lstrip_head s) as [E | (c & t & E & Hc)].
  - rewrite E in Hne. done.
  - rewrite E in *. simpl in *.
    destruct (lstrip_ends_solid (rev t ++ [c])) as (u & d & Eu & Hd).
    { by exists (rev t), c. }
    assert (d = c) as ->.
    { pose proof (lstrip_suffix (rev t ++ [c])) as [k Hk]. rewrite Eu in Hk.
      rewrite (assoc_L (++)) in Hk. by apply app_inj_tail in Hk as [_ ?]. }
    rewrite Eu, rev_app_distr. simpl. by exists c, (rev u).
Qed.

Lemma strip_solid s : starts_solid s -> ends_solid s -> strip s = s.
Proof.
  intros (c & t & -> & Hc) (u & d & E & Hd).
  unfold strip, rstrip. rewrite lstrip_solid by done.
  rewrite E, rev_app_distr. simpl. rewrite Hd.
  change (d :: rev u) with ([d] ++ rev u).
  by rewrite rev_app_distr, rev_involutive.
Qed.

Lemma occurs_in_refl s : occurs_in s s.
Proof. exists [], []. by rewrite app_nil_r. Qed.

Lemma occurs_in_app_l t s u : occurs_in t s -> occurs_in t (s ++ u).
Proof.
  intros (a & b & ->). exists a, (b ++ u). by rewrite <- !(assoc_L (++)).
Qed.

Lemma occurs_in_app_r t s u : occurs_in t s -> occurs_in t (u ++ s).
Proof.
  intros (a & b & ->). exists (u ++ a), b. by rewrite <- !(assoc_L (++)).
Qed.

Lemma occurs_in_nil p : p ≠ [] -> ¬ occurs_in p [].
Proof.
  intros Hne (a & b & E). symmetry in E.
  apply app_eq_nil in E as [_ E]. by apply app_eq_nil in E as [? _].
Qed.

Lemma occurs_in_rev t s : occurs_in t s -> occurs_in (rev t) (rev s).
Proof.
  intros (a & b & ->). exists (rev b), (rev a).
  by rewrite !rev_app_distr, <- (assoc_L (++)).
Qed.

Lemma occurs_in_lstrip p s :
  starts_solid p -> occurs_in p s -> occurs_in p (lstrip s).
Proof.
  intros (c & t & -> & Hc) (a & b & ->).
  induction a as [|d a IH]; simpl.
  - rewrite Hc. by exists [], b.
  - destruct (isspace d); [done|]. by exists (d :: a), b.
Qed.

(** Trimming does not cut into a piece that starts and ends with non-space
    characters. *)
Lemma occurs_in_strip p s :
  starts_solid p -> ends_solid p -> occurs_in p s -> occurs_in p (strip s).
Proof.
  intros Hstart (u & d & E & Hd) Hin. unfold strip, rstrip.
  rewrite <- (rev_involutive p). apply occurs_in_rev, occurs_in_lstrip.
  - exists d, (rev u). by rewrite E, rev_app_distr.
  - by apply occurs_in_rev, occurs_in_lstrip.
Qed.

Lemma join_nn_cons p q rest :
  join_nn (p :: q :: rest) = p ++ nn ++ join_nn (q :: rest).
Proof. reflexivity. Qed.

Lemma join_nn_merge p q rest :
  join_nn ((p ++ nn ++ q) :: rest) = join_nn (p :: q :: rest).
Proof.
  destruct rest as [|r rest]; [done|].
  rewrite !join_nn_cons. by rewrite <- !(assoc_L (++)).
Qed.

Lemma len_join_nn_cons p rest : len p <= len (join_nn (p :: rest)).
Proof.
  destruct rest as [|q rest]; [simpl; lia|].
  rewrite join_nn_cons, len_sep. pose proof (len_nonneg (join_nn (q :: rest))).
  lia.
Qed.

Lemma join_nn_ends_solid p rest :
  Forall ends_solid (p :: rest) -> ends_solid (join_nn (p :: rest)).
Proof.
  revert p. induction rest as [|q rest IH]; intros p Hall.
  - by apply Forall_cons in Hall as [? _].
  - apply Forall_cons in Hall as [_ Hall]. rewrite join_nn_cons.
    do 2 apply ends_solid_app. by apply IH.
Qed.

Lemma join_nn_starts_solid p rest :
  starts_solid p -> starts_solid (join_nn (p :: rest)).
Proof.
  intros (c & t & -> & Hc). destruct rest as [|q rest]; [by exists c, t|].
  rewrite join_nn_cons. by exists c, (t ++ nn ++ join_nn (q :: rest)).
Qed.

End Trimmed.

(** ** More about the chunker *)

Section ChunkerInvariants.
Import Chunking.
Variables size overlap : Z.

Lemma paragraph_is_solid text p : p ∈ paragraphs text -> solid p.
Proof.
  intros Hin. destruct (paragraph_solid text p Hin) as [Hne Hend].
  split; [done|]. split; [|done].
  unfold paragraphs in Hin. apply list_elem_of_filter in Hin as [_ Hin].
  apply list_elem_of_fmap in Hin as (q & -> & _). by apply strip_starts_solid.
Qed.

Lemma paragraphs_solid text : Forall solid (paragraphs text).
Proof. apply Forall_forall. intros p. apply paragraph_is_solid. Qed.

Lemma loop_preserves (I : LoopState -> Prop) (P : str -> Prop) :
  (∀ idx p st, P p -> I st -> I (loop_body size overlap idx p st)) ->
  ∀ rest idx st, Forall P rest -> I st -> I (loop size overlap rest idx st).
Proof.
  intros Hstep rest. induction rest as [|p rest IH]; intros idx st Hall Hst.
  - done.
  - apply Forall_cons in Hall as [Hp Hall]. simpl. apply IH; [done|].
    by apply Hstep.
Qed.

Lemma loop_body_init idx p :
  loop_body size overlap idx p init
  = {| chunks := []; current_chunk := p; next_index := 0 |}.
Proof. unfold loop_body, closes. simpl. by rewrite andb_false_r. Qed.

Lemma loop_body_cases idx p st :
  (closes size (current_chunk st) p = true
   ∧ current_chunk st ≠ []
   ∧ loop_body size overlap idx p st
     = {| chunks := chunks st ++ [close_chunk (current_chunk st) (next_index st) idx];
          current_chunk := overlap_text overlap (current_chunk st) ++ nn ++ p;
          next_index := next_index st + 1 |})
  ∨ (closes size (current_chunk st) p = false
     ∧ loop_body size overlap idx p st
       = {| chunks := chunks st;
            current_chunk :=
              if truthy (current_chunk st) then current_chunk st ++ nn ++ p else p;
            next_index := next_index st |}).
Proof.
  unfold loop_body. destruct (closes size (current_chunk st) p) eqn:E.
  - left. split; [done|]. split; [|done].
    unfold closes in E. apply andb_true_iff in E as [_ E]. by apply truthy_true.
  - right. done.
Qed.

Lemma loop_body_buffer idx p st :
  solid p -> current_chunk (loop_body size overlap idx p st) ≠ []
             ∧ ends_solid (current_chunk (loop_body size overlap idx p st)).
Proof.
  intros (Hne & _ & Hend).
  destruct (loop_body_cases idx p st) as [(_ & _ & ->) | (_ & ->)];
    cbn [current_chunk].
  - split; [|by do 2 apply ends_solid_app].
    intros E. apply app_eq_nil in E as [_ E]. discriminate E.
  - destruct (truthy (current_chunk st)); [|done].
    split; [|by do 2 apply ends_solid_app].
    intros E. apply app_eq_nil in E as [_ E]. discriminate E.
Qed.

End ChunkerInvariants.

Section ChunkerProperties.
Import Chunking.
Variables size overlap : Z.

(** The indices of the closed chunks count up from zero, and [next_index]
    is their number. *)
Lemma loop_indices rest : ∀ idx st,
  chunk_index <$> chunks st = Z.of_nat <$> seq 0 (length (chunks st)) ->
  next_index st = len (chunks st) ->
  let st' := loop size overlap rest idx st in
  chunk_index <$> chunks st' = Z.of_nat <$> seq 0 (length (chunks st'))
  ∧ next_index st' = len (chunks st').
Proof.
  induction rest as [|p rest IH]; intros idx st Hidx Hnext; simpl; [done|].
  apply IH.
  - destruct (loop_body_cases size overlap idx p st) as [(_ & _ & ->) | (_ & ->)];
      cbn [chunks]; [|done].
    rewrite fmap_app, length_app, seq_app, fmap_app, Hidx. simpl.
    by rewrite Hnext.
  - destruct (loop_body_cases size overlap idx p st) as [(_ & _ & ->) | (_ & ->)];
      cbn [chunks next_index]; [|done].
    rewrite Hnext. unfold len. rewrite length_app. simpl. lia.
Qed.

Lemma loop_count rest : ∀ idx st,
  (length (chunks (loop size overlap rest idx st))
   <= length (chunks st) + length rest)%nat.
Proof.
  induction rest as [|p rest IH]; intros idx st; simpl; [lia|].
  etrans; [apply IH|].
  destruct (loop_body_cases size overlap idx p st) as [(_ & _ & ->) | (_ & ->)];
    cbn [chunks]; [rewrite length_app; simpl|]; lia.
Qed.

Lemma loop_buffer_solid rest : ∀ idx st,
  Forall solid rest ->
  current_chunk st ≠ [] -> ends_solid (current_chunk st) ->
  current_chunk (loop size overlap rest idx st) ≠ []
  ∧ ends_solid (current_chunk (loop size overlap rest idx st)).
Proof.
  induction rest as [|p rest IH]; intros idx st Hall Hne Hend; simpl; [done|].
  apply Forall_cons in Hall as [Hp Hall].
  destruct (loop_body_buffer size overlap idx p st Hp). by apply IH.
Qed.

Lemma stripped_well_formed cur index start_ end_ :
  strip cur ≠ [] ->
  well_formed {| content := strip cur; chunk_index := index; start_para := start_;
                 end_para := end_; char_count := len cur |}.
Proof.
  intros Hne. split; [done|]. split; [|apply len_strip]. cbn [content].
  apply strip_solid; [by apply strip_starts_solid | by apply strip_ends_solid].
Qed.

Lemma loop_well_formed rest : ∀ idx st,
  Forall solid rest ->
  current_chunk st = [] ∨ ends_solid (current_chunk st) ->
  Forall well_formed (chunks st) ->
  let st' := loop size overlap rest idx st in
  (current_chunk st' = [] ∨ ends_solid (current_chunk st'))
  ∧ Forall well_formed (chunks st').
Proof.
  induction rest as [|p rest IH]; intros idx st Hall Hbuf Hwf; simpl; [done|].
  apply Forall_cons in Hall as [Hp Hall]. apply IH; [done | |].
  - right. by apply loop_body_buffer.
  - destruct (loop_body_cases size overlap idx p st) as [(_ & Hne & ->) | (_ & ->)];
      cbn [chunks]; [|done].
    apply Forall_app. split; [done|]. constructor; [|constructor].
    apply stripped_well_formed, strip_of_ends_solid. by destruct Hbuf.
Qed.

(** While the paragraphs still to come fit behind the buffer, nothing is
    closed and the buffer grows into their join. *)
Lemma loop_fits rest : ∀ idx st,
  current_chunk st ≠ [] ->
  len (join_nn (current_chunk st :: rest)) <= size ->
  loop size overlap rest idx st
  = {| chunks := chunks st;
       current_chunk := join_nn (current_chunk st :: rest);
       next_index := next_index st |}.
Proof.
  induction rest as [|p rest IH]; intros idx st Hne Hfit; simpl.
  - by destruct st.
  - rewrite join_nn_cons, len_sep in Hfit.
    pose proof (len_join_nn_cons p rest).
    destruct (loop_body_cases size overlap idx p st) as [(Hc & _) | (_ & E)].
    { unfold closes in Hc. apply andb_true_iff in Hc as [Hc _]. lia. }
    apply truthy_true in Hne. rewrite Hne in E. rewrite E.
    rewrite IH; cbn [current_chunk chunks next_index].
    + by rewrite join_nn_merge.
    + intros Hnil. apply app_eq_nil in Hnil as [_ Hnil]. discriminate Hnil.
    + rewrite join_nn_merge, join_nn_cons, len_sep. lia.
Qed.

End ChunkerProperties.

Section ChunkerTheorems.
Import Chunking.
Variable settings : Settings.
Variable text : str.
Variables size_arg overlap_arg : option Z.

(** The chunks carry the indices 0, 1, 2, ... in order. *)
Theorem chunk_indices_count_from_zero :
  chunk_index <$> hierarchical_chunking settings text size_arg overlap_arg
  = Z.of_nat
      <$> seq 0 (length (hierarchical_chunking settings text size_arg overlap_arg)).
Proof.
  unfold hierarchical_chunking.
  set (size := default (chunk_size settings) size_arg).
  set (overlap := default (chunk_overlap settings) overlap_arg).
  destruct (loop_indices size overlap (paragraphs text) 0 init) as [Hidx Hnext];
    [done | done |].
  unfold finish.
  destruct (truthy (strip (current_chunk
             (loop size overlap (paragraphs text) 0 init)))); [|done].
  rewrite fmap_app, length_app, seq_app, fmap_app, Hidx. simpl.
  by rewrite Hnext.
Qed.

(** There are never more chunks than paragraphs, and there is no chunk
    exactly when the text has no paragraph (it is empty or blank). *)
Theorem chunk_count_bounds :
  (length (hierarchical_chunking settings text size_arg overlap_arg)
   <= length (paragraphs text))%nat
  ∧ (hierarchical_chunking settings text size_arg overlap_arg = []
     <-> paragraphs text = []).
Proof.
  unfold hierarchical_chunking.
  set (size := default (chunk_size settings) size_arg).
  set (overlap := default (chunk_overlap settings) overlap_arg).
  pose proof (paragraphs_solid text) as Hall.
  destruct (paragraphs text) as [|p rest]; [done|].
  apply Forall_cons in Hall as [Hp Hall].
  cbn [loop]. rewrite loop_body_init.
  pose proof (loop_count size overlap rest (0 + 1)
                {| chunks := []; current_chunk := p; next_index := 0 |}) as Hcount.
  destruct (loop_buffer_solid size overlap rest (0 + 1)
              {| chunks := []; current_chunk := p; next_index := 0 |})
    as [_ Hend]; [done | apply Hp | apply Hp |].
  unfold finish. apply strip_of_ends_solid, truthy_true in Hend. rewrite Hend.
  split.
  - rewrite length_app. simpl in *. lia.
  - split; [|done]. intros E. by apply app_eq_nil in E as [_ ?].
Qed.

(** Every chunk is non-empty and trimmed, and its [char_count] (the length
    of the untrimmed buffer) is at least the length of its content. *)
Theorem chunks_well_formed :
  Forall well_formed (hierarchical_chunking settings text size_arg overlap_arg).
Proof.
  unfold hierarchical_chunking.
  set (size := default (chunk_size settings) size_arg).
  set (overlap := default (chunk_overlap settings) overlap_arg).
  destruct (loop_well_formed size overlap (paragraphs text) 0 init)
    as [Hbuf Hwf]; [apply paragraphs_solid | by left | constructor |].
  unfold finish.
  destruct (truthy (strip (current_chunk
             (loop size overlap (paragraphs text) 0 init)))) eqn:E; [|done].
  apply Forall_app. split; [done|]. constructor; [|constructor].
  apply stripped_well_formed. by apply truthy_true.
Qed.

(** A text whose paragraphs, joined by separators, fit the size limit
    becomes one chunk: that join, with index 0. *)
Theorem small_text_is_one_chunk :
  paragraphs text ≠ [] ->
  len (join_nn (paragraphs text)) <= default (chunk_size settings) size_arg ->
  ∃ c, hierarchical_chunking settings text size_arg overlap_arg = [c]
       ∧ content c = join_nn (paragraphs text)
       ∧ chunk_index c = 0
       ∧ end_para c = len (paragraphs text)
       ∧ char_count c = len (join_nn (paragraphs text)).
Proof.
  intros Hne Hfit. unfold hierarchical_chunking.
  set (size := default (chunk_size settings) size_arg).
  set (overlap := default (chunk_overlap settings) overlap_arg).
  pose proof (paragraphs_solid text) as Hall.
  destruct (paragraphs text) as [|p rest] eqn:E; [done|].
  cbn [loop]. rewrite loop_body_init.
  rewrite loop_fits; cbn [current_chunk chunks next_index];
    [| apply Forall_cons in Hall as [Hp _]; apply Hp | done].
  assert (strip (join_nn (p :: rest)) = join_nn (p :: rest)) as Hstrip.
  { apply strip_solid.
    - apply join_nn_starts_solid. apply Forall_cons in Hall as [Hp _]. apply Hp.
    - apply join_nn_ends_solid. eapply Forall_impl; [exact Hall|].
      intros q Hq. apply Hq. }
  unfold finish. cbn [current_chunk chunks next_index]. rewrite Hstrip.
  assert (truthy (join_nn (p :: rest)) = true) as ->.
  { apply truthy_true. intros Hnil.
    apply Forall_cons in Hall as [Hp _].
    destruct (join_nn_starts_solid p rest (proj1 (proj2 Hp))) as (c & t & Hct & _).
    rewrite Hnil in Hct. discriminate Hct. }
  eexists. split; [reflexivity|]. done.
Qed.

End ChunkerTheorems.

Lemma small_text_is_one_chunk_witness :
  ∃ c, hierarchical_chunking default_settings scenario_text None None = [c]
       ∧ Chunking.content c = join_nn (paragraphs scenario_text)
       ∧ Chunking.chunk_index c = 0
       ∧ end_para c = len (paragraphs scenario_text)
       ∧ char_count c = len (join_nn (paragraphs scenario_text)).
Proof.
  apply (small_text_is_one_chunk default_settings scenario_text None None).
  - vm_compute. discriminate.
  - vm_compute. discriminate.
Defined.

Section ChunkerCoverage.
Import Chunking.
Variables size overlap : Z.

(** Where a paragraph met so far is to be found: in a closed chunk, or in
    the buffer. *)
Lemma loop_body_keeps idx q st p :
  solid p -> solid q ->
  current_chunk st = [] ∨ ends_solid (current_chunk st) ->
  Exists (fun c => occurs_in p (content c)) (chunks st)
  ∨ occurs_in p (current_chunk st) ∨ p = q ->
  Exists (fun c => occurs_in p (content c))
    (chunks (loop_body size overlap idx q st))
  ∨ occurs_in p (current_chunk (loop_body size overlap idx q st)).
Proof.
  intros Hp Hq Hbuf Hwhere.
  destruct (loop_body_cases size overlap idx q st) as [(_ & Hne & ->) | (_ & ->)];
    cbn [chunks current_chunk].
  - destruct Hwhere as [Hin | [Hin | ->]].
    + left. apply Exists_app. by left.
    + left. apply Exists_app. right. constructor. cbn [content close_chunk].
      apply occurs_in_strip; [apply Hp | apply Hp | done].
    + right. do 2 apply occurs_in_app_r. apply occurs_in_refl.
  - destruct Hwhere as [Hin | [Hin | ->]].
    + by left.
    + right. destruct (truthy (current_chunk st)) eqn:Ht.
      * by apply occurs_in_app_l.
      * destruct (current_chunk st); [|done].
        by apply occurs_in_nil in Hin; [|apply Hp].
    + right. destruct (truthy (current_chunk st)).
      * do 2 apply occurs_in_app_r. apply occurs_in_refl.
      * apply occurs_in_refl.
Qed.

Lemma loop_keeps rest : ∀ idx st seen,
  Forall solid rest -> Forall solid seen ->
  current_chunk st = [] ∨ ends_solid (current_chunk st) ->
  Forall (fun p => Exists (fun c => occurs_in p (content c)) (chunks st)
                   ∨ occurs_in p (current_chunk st)) seen ->
  let st' := loop size overlap rest idx st in
  (current_chunk st' = [] ∨ ends_solid (current_chunk st'))
  ∧ Forall (fun p => Exists (fun c => occurs_in p (content c)) (chunks st')
                     ∨ occurs_in p (current_chunk st')) (rest ++ seen).
Proof.
  induction rest as [|q rest IH]; intros idx st seen Hrest Hseen Hbuf Hall; simpl.
  - done.
  - apply Forall_cons in Hrest as [Hq Hrest].
    destruct (IH (idx + 1) (loop_body size overlap idx q st) (q :: seen))
      as [Hbuf' Hall']; [done | by constructor | | |].
    + right. by apply loop_body_buffer.
    + constructor.
      * apply loop_body_keeps; [done | done | done | by right; right].
      * rewrite Forall_forall in Hall, Hseen |- *. intros p Hp.
        apply loop_body_keeps; [by apply Hseen | done | done |].
        destruct (Hall p Hp); [by left | by right; left].
    + split; [done|]. rewrite Forall_forall in Hall' |- *. intros p Hp.
      apply Hall'. rewrite elem_of_app, elem_of_cons.
      apply elem_of_cons in Hp as [-> | Hp]; [by right; left|].
      apply elem_of_app in Hp as [Hp | Hp]; [by left | by right; right].
Qed.

Lemma overlap_text_zero cur : overlap_text 0 cur = cur.
Proof. unfold overlap_text, slice_from. by destruct (len cur >? 0). Qed.

(** With an overlap of zero the buffer is never cut. *)
Lemma loop_zero_overlap rest : ∀ idx st,
  current_chunk st ≠ [] ->
  current_chunk (loop size 0 rest idx st) = join_nn (current_chunk st :: rest).
Proof.
  induction rest as [|p rest IH]; intros idx st Hne; simpl; [done|].
  assert (current_chunk (loop_body size 0 idx p st) = current_chunk st ++ nn ++ p)
    as E.
  { destruct (loop_body_cases size 0 idx p st) as [(_ & _ & ->) | (_ & ->)];
      cbn [current_chunk].
    - by rewrite overlap_text_zero.
    - apply truthy_true in Hne. by rewrite Hne. }
  rewrite IH, E.
  - by rewrite join_nn_merge.
  - rewrite E. intros Hnil. apply app_eq_nil in Hnil as [_ Hnil]. discriminate Hnil.
Qed.

End ChunkerCoverage.

(** No paragraph is lost: each paragraph of the text occurs in the content
    of some chunk. *)
Theorem every_paragraph_in_some_chunk settings text size_arg overlap_arg :
  Forall
    (fun p =>
       Exists (fun c => occurs_in p (Chunking.content c))
         (hierarchical_chunking settings text size_arg overlap_arg))
    (paragraphs text).
Proof.
  unfold hierarchical_chunking.
  set (size := default (chunk_size settings) size_arg).
  set (overlap := default (chunk_overlap settings) overlap_arg).
  destruct (loop_keeps size overlap (paragraphs text) 0 init [])
    as [Hbuf Hall]; [apply paragraphs_solid | constructor | by left | constructor |].
  rewrite app_nil_r in Hall. pose proof (paragraphs_solid text) as Hsolid.
  rewrite Forall_forall in Hall, Hsolid |- *. intros p Hp.
  specialize (Hall p Hp). specialize (Hsolid p Hp).
  unfold finish. destruct Hall as [Hin | Hin].
  - destruct (truthy _); [apply Exists_app; by left | done].
  - assert (ends_solid (current_chunk (loop size overlap (paragraphs text) 0 init)))
      as Hend.
    { destruct Hbuf as [E | ?]; [|done]. rewrite E in Hin.
      by apply occurs_in_nil in Hin; [|apply Hsolid]. }
    pose proof (strip_of_ends_solid _ Hend) as Hne.
    apply truthy_true in Hne. rewrite Hne.
    apply Exists_app. right. constructor. cbn [Chunking.content].
    apply occurs_in_strip; [apply Hsolid | apply Hsolid | done].
Qed.

(** With an overlap of zero the last chunk is the whole text: all the
    paragraphs, joined by separators. *)
Theorem zero_overlap_last_chunk_is_whole_text settings text size_arg overlap_arg :
  default (chunk_overlap settings) overlap_arg = 0 ->
  paragraphs text ≠ [] ->
  Chunking.content <$> last (hierarchical_chunking settings text size_arg overlap_arg)
  = Some (join_nn (paragraphs text)).
Proof.
  intros Hzero Hne. unfold hierarchical_chunking. rewrite Hzero.
  set (size := default (chunk_size settings) size_arg).
  pose proof (paragraphs_solid text) as Hall.
  destruct (paragraphs text) as [|p rest] eqn:E; [done|].
  cbn [loop]. rewrite loop_body_init.
  pose proof (loop_zero_overlap size rest (0 + 1)
                {| Chunking.chunks := []; current_chunk := p; next_index := 0 |}) as Hcur.
  cbn [current_chunk] in Hcur.
  assert (p ≠ []) as Hp by (apply Forall_cons in Hall as [Hp _]; apply Hp).
  specialize (Hcur Hp).
  assert (strip (join_nn (p :: rest)) = join_nn (p :: rest)) as Hstrip.
  { apply strip_solid.
    - apply join_nn_starts_solid. apply Forall_cons in Hall as [Hs _]. apply Hs.
    - apply join_nn_ends_solid. eapply Forall_impl; [exact Hall|].
      intros q Hq. apply Hq. }
  unfold finish. rewrite Hcur, Hstrip.
  assert (truthy (join_nn (p :: rest)) = true) as ->.
  { apply truthy_true. intros Hnil.
    apply Forall_cons in Hall as [Hs _].
    destruct (join_nn_starts_solid p rest (proj1 (proj2 Hs))) as (c & t & Hct & _).
    rewrite Hnil in Hct. discriminate Hct. }
  by rewrite last_snoc.
Qed.

Lemma zero_overlap_last_chunk_is_whole_text_witness :
  Chunking.content
    <$> last (hierarchical_chunking default_settings scenario_text (Some 10) (Some 0))
  = Some (join_nn (paragraphs scenario_text)).
Proof.
  apply (zero_overlap_last_chunk_is_whole_text default_settings scenario_text
           (Some 10) (Some 0)).
  - reflexivity.
  - vm_compute. discriminate.
Defined.

(** ** Text extraction *)

(** The content types that [upload_document] accepts are exactly those the
    extraction dispatches to a reader; for any other type the extraction
    raises "Unsupported file type". *)
Theorem accepted_types_are_extracted readers file_path file_type :
  (file_type ∈ Documents.allowed_types ->
   extract_text_from_document readers file_path file_type
   ∈ [extract_text_from_pdf readers file_path;
      extract_text_from_docx readers file_path;
      extract_text_from_xlsx readers file_path;
      extract_text_from_txt readers file_path])
  ∧ (file_type ∉ Documents.allowed_types ->
     extract_text_from_document readers file_path file_type
     = Raised (Exception (py "Unsupported file type: " ++ file_type))
     ∧ process_file default_settings readers file_path file_type
       = Raised (Exception (py "Unsupported file type: " ++ file_type))).
Proof.
  unfold process_file, process_document, extract_text_from_document,
    Documents.allowed_types.
  split; intros Hin.
  - repeat case_bool_decide; try (by repeat constructor).
    repeat (apply elem_of_cons in Hin as [-> | Hin]; [done|]).
    by apply elem_of_nil in Hin.
  - repeat case_bool_decide; try done; subst; exfalso; apply Hin;
      by repeat constructor.
Qed.

(** ** More about the vector database service *)

Section VectorDatabaseService.
Import VectorDB.

Lemma imap_format_result_rank hits : ∀ k,
  rank <$> imap (fun i => format_result (k + i)) hits
  = (fun i => Z.of_nat i + 1) <$> seq k (length hits).
Proof.
  induction hits as [|hit hits IH]; intros k; [done|].
  cbn [imap length seq]. rewrite !fmap_cons.
  f_equal.
  - cbn [rank format_result]. by rewrite Nat.add_0_r.
  - rewrite <- (IH (S k)). f_equal. apply imap_ext. intros i x _. simpl.
    f_equal. lia.
Qed.

(** The results of a search carry the ranks 1, 2, 3, ... in order. *)
Theorem search_ranks_count_from_one self server query_text project_id document_id
    top_k score_threshold :
  rank <$> search self server query_text project_id document_id top_k score_threshold
  = (fun i => Z.of_nat i + 1)
      <$> seq 0 (length (search self server query_text project_id document_id
                           top_k score_threshold)).
Proof.
  unfold search, search_try.
  destruct (generate_embedding self query_text) as [query_embedding|]; [|done].
  destruct (the_client self) as [c|]; [|done].
  cbn [mbind outcome_bind].
  destruct (Qdrant.search server (collection_name self) query_embedding
              (query_filter project_id document_id) top_k score_threshold)
    as [hits|]; [|done].
  cbn [mbind outcome_bind mret outcome_ret].
  rewrite length_imap. apply (imap_format_result_rank hits 0).
Qed.

(** Before [connect] every operation fails softly: a search returns no
    result, the others return [False], and the server is left as it was. *)
Theorem unconnected_operations_fail_softly settings server :
  (∀ query_text project_id document_id top_k score_threshold,
     search (new settings) server query_text project_id document_id top_k
       score_threshold = [])
  ∧ (∀ recreate, create_collection (new settings) server recreate = (server, false))
  ∧ (∀ chunk_ids texts metadatas,
       upsert_chunks (new settings) server chunk_ids texts metadatas
       = (server, false))
  ∧ (∀ chunk_ids, delete_chunks (new settings) server chunk_ids = (server, false))
  ∧ (∀ document_id,
       delete_by_document (new settings) server document_id = (server, false)).
Proof. repeat split. Qed.

(** When the server cannot be reached, a search returns no result, the other
    operations return [False], and nothing changes. *)
Theorem unreachable_operations_fail_softly self server :
  Qdrant.reachable server = false ->
  (∀ query_text project_id document_id top_k score_threshold,
     search self server query_text project_id document_id top_k score_threshold
     = [])
  ∧ (∀ recreate, create_collection self server recreate = (server, false))
  ∧ (∀ chunk_ids texts metadatas,
       upsert_chunks self server chunk_ids texts metadatas = (server, false))
  ∧ (∀ chunk_ids, delete_chunks self server chunk_ids = (server, false))
  ∧ (∀ document_id, delete_by_document self server document_id = (server, false)).
Proof.
  intros Hdown.
  assert (∀ name, Qdrant.get_collection server name
                  = Raised (Exception (py "connection refused"))) as Hget.
  { intros name. unfold Qdrant.get_collection, Qdrant.available. by rewrite Hdown. }
  split; [|split; [|split; [|split]]].
  - intros qt pid did k th.
    unfold search, search_try, Qdrant.search. rewrite Hget.
    destruct (generate_embedding self qt); [|done].
    by destruct (the_client self).
  - intros recreate.
    unfold create_collection, create_collection_try, Qdrant.get_collections,
      Qdrant.available. rewrite Hdown. by destruct (the_client self).
  - intros ids texts metadatas.
    unfold upsert_chunks, upsert_chunks_try, Qdrant.upsert. rewrite Hget.
    destruct (generate_embeddings_batch self texts); [|done].
    by destruct (the_client self).
  - intros ids. unfold delete_chunks, Qdrant.delete_points. rewrite Hget.
    by destruct (the_client self).
  - intros did. unfold delete_by_document, Qdrant.delete_points. rewrite Hget.
    by destruct (the_client self).
Qed.

(** After a successful [connect] of a new object, its dimension is the
    dimension of the model's embeddings, whether or not that is the
    configured one; should the client or the model fail to load, [connect]
    returns [False] and the object has no model. *)
Theorem connect_outcomes settings env :
  match new_client env, load_model env (embedding_model_name settings) with
  | Returned c, Returned m =>
      connect settings env (new settings)
      = ({| client := Some c;
            embedding_model := Some m;
            collection_name := qdrant_collection_name settings;
            dimension := len (encode m (py "test")) |},
         true)
  | _, _ =>
      (connect settings env (new settings)).2 = false
      ∧ embedding_model (connect settings env (new settings)).1 = None
  end.
Proof.
  unfold connect.
  destruct (new_client env) as [c|]; [|done].
  destruct (load_model env (embedding_model_name settings)) as [m|]; [|done].
  case_bool_decide as Hdim; [done|].
  unfold set_embedding_model, set_client, new.
  cbn [client embedding_model collection_name dimension]. by rewrite Hdim.
Qed.

End VectorDatabaseService.

Lemma unreachable_operations_fail_softly_witness :
  let server := qdrant (unreachable started) in
  (∀ query_text project_id document_id top_k score_threshold,
     VectorDB.search connected server query_text project_id document_id top_k
       score_threshold = [])
  ∧ (∀ recreate, VectorDB.create_collection connected server recreate
                 = (server, false))
  ∧ (∀ chunk_ids texts metadatas,
       VectorDB.upsert_chunks connected server chunk_ids texts metadatas
       = (server, false))
  ∧ (∀ chunk_ids, VectorDB.delete_chunks connected server chunk_ids = (server, false))
  ∧ (∀ document_id,
       VectorDB.delete_by_document connected server document_id = (server, false)).
Proof.
  apply (unreachable_operations_fail_softly connected (qdrant (unreachable started))).
  reflexivity.
Defined.

Section Collections.
Import VectorDB.

Lemma condition_holds_true payload c :
  Qdrant.condition_holds payload c = true
  <-> payload !! Qdrant.key c = Some (VStr (Qdrant.match_value c)).
Proof.
  unfold Qdrant.condition_holds.
  destruct (payload !! Qdrant.key c) as [[| v | |]|]; try (split; congruence).
  rewrite bool_decide_eq_true. split; congruence.
Qed.

Lemma create_collection_absent self server recreate :
  client self = Some tt ->
  Qdrant.reachable server = true ->
  Qdrant.collections server !! collection_name self = None ->
  create_collection self server recreate
  = (Qdrant.with_collections server
       (<[collection_name self :=
            {| Qdrant.vectors_size := dimension self; Qdrant.points := ∅ |}]>
          (Qdrant.collections server)),
     true).
Proof.
  intros Hcl Hup Hnone.
  assert (collection_name self ∉ (map_to_list (Qdrant.collections server)).*1)
    as Hnot.
  { rewrite collection_listed, Hnone. by intros [? ?]. }
  unfold create_collection, create_collection_try, the_client,
    Qdrant.get_collections, Qdrant.available.
  rewrite Hcl, Hup. cbn [mbind outcome_bind mret outcome_ret].
  rewrite (bool_decide_eq_false_2 _ Hnot), andb_false_r.
  rewrite (bool_decide_eq_true_2 _ Hnot).
  unfold Qdrant.create_collection, Qdrant.available. rewrite Hup.
  cbn [mbind outcome_bind mret outcome_ret]. by rewrite Hnone.
Qed.

(** When the collection does not exist, [create_collection] creates it,
    empty and with the dimension of the object, and leaves every other
    collection alone. *)
Theorem create_collection_creates self server recreate :
  client self = Some tt ->
  Qdrant.reachable server = true ->
  Qdrant.collections server !! collection_name self = None ->
  create_collection self server recreate
  = (Qdrant.with_collections server
       (<[collection_name self :=
            {| Qdrant.vectors_size := dimension self; Qdrant.points := ∅ |}]>
          (Qdrant.collections server)),
     true).
Proof. apply create_collection_absent. Qed.

(** With [recreate], an existing collection is replaced by an empty one of
    the dimension of the object: every point it held is dropped. *)
Theorem recreate_replaces_collection self server c :
  client self = Some tt ->
  Qdrant.reachable server = true ->
  Qdrant.collections server !! collection_name self = Some c ->
  create_collection self server true
  = (Qdrant.with_collections server
       (<[collection_name self :=
            {| Qdrant.vectors_size := dimension self; Qdrant.points := ∅ |}]>
          (Qdrant.collections server)),
     true).
Proof.
  intros Hcl Hup Hc.
  assert (collection_name self ∈ (map_to_list (Qdrant.collections server)).*1)
    as Hin.
  { rewrite collection_listed, Hc. by eexists. }
  unfold create_collection, create_collection_try, the_client,
    Qdrant.get_collections, Qdrant.available.
  rewrite Hcl, Hup. cbn [mbind outcome_bind mret outcome_ret andb].
  rewrite (bool_decide_eq_true_2 _ Hin).
  unfold Qdrant.delete_collection, Qdrant.available. rewrite Hup.
  cbn [mbind outcome_bind mret outcome_ret].
  rewrite bool_decide_eq_true_2.
  2:{ rewrite list_elem_of_difference. intros [_ Hnot]. apply Hnot. by left. }
  unfold Qdrant.create_collection, Qdrant.available, Qdrant.with_collections.
  cbn [Qdrant.reachable Qdrant.collections]. rewrite Hup.
  cbn [mbind outcome_bind mret outcome_ret].
  rewrite lookup_delete_eq. cbn [Qdrant.similarity].
  by rewrite insert_delete_eq.
Qed.

(** [delete_by_document] removes every point of the document and no point
    of any other document. *)
Theorem delete_by_document_only_that_document self server c document_id other :
  client self = Some tt ->
  Qdrant.reachable server = true ->
  Qdrant.collections server !! collection_name self = Some c ->
  other ≠ document_id ->
  (delete_by_document self server document_id).2 = true
  ∧ indexed_ids (delete_by_document self server document_id).1
      (collection_name self) document_id = ∅
  ∧ indexed_ids (delete_by_document self server document_id).1
      (collection_name self) other
    = indexed_ids server (collection_name self) other.
Proof.
  intros Hcl Hup Hc Hother.
  destruct (delete_by_document_clears self server c document_id Hcl Hup Hc)
    as [Hok Hclear].
  split; [done|]. split; [done|].
  unfold delete_by_document, the_client, Qdrant.delete_points,
    Qdrant.get_collection, Qdrant.available.
  rewrite Hcl, Hup. cbn [mbind outcome_bind mret outcome_ret]. rewrite Hc.
  cbn [mbind outcome_bind mret outcome_ret fst].
  unfold indexed_ids. cbn [Qdrant.collections Qdrant.with_collections].
  rewrite lookup_insert_eq, Hc. cbn [Qdrant.points]. f_equal.
  rewrite map_filter_filter. apply map_filter_ext. intros k p Hp.
  cbn [snd Qdrant.selected Qdrant.matches Qdrant.must forallb].
  split; [by intros [? _]|]. intros Hcond. split; [done|].
  rewrite andb_true_r. apply not_true_is_false. intros Hsel.
  apply condition_holds_true in Hcond, Hsel.
  cbn [Qdrant.key Qdrant.match_value] in Hcond, Hsel. congruence.
Qed.

(** With both ids given, the filter is the conjunction of the two scope
    conditions. *)
Theorem query_filter_is_conjunction c s c' s' payload :
  Qdrant.matches (query_filter (Some (c :: s)) (Some (c' :: s'))) payload = true
  <-> payload !! py "project_id" = Some (VStr (c :: s))
      ∧ payload !! py "document_id" = Some (VStr (c' :: s')).
Proof.
  unfold query_filter, conditions. rewrite !given_nonempty.
  cbn [app truthy Qdrant.matches Qdrant.must forallb].
  rewrite andb_true_r, andb_true_iff, !condition_holds_true. done.
Qed.

End Collections.

Lemma create_collection_creates_witness :
  VectorDB.create_collection connected empty_server true
  = (Qdrant.with_collections empty_server
       (<[VectorDB.collection_name connected :=
            {| Qdrant.vectors_size := VectorDB.dimension connected;
               Qdrant.points := ∅ |}]>
          (Qdrant.collections empty_server)),
     true).
Proof.
  apply (create_collection_creates connected empty_server true);
    vm_compute; reflexivity.
Defined.

Lemma recreate_replaces_collection_witness :
  VectorDB.create_collection connected (qdrant uploaded) true
  = (Qdrant.with_collections (qdrant uploaded)
       (<[VectorDB.collection_name connected :=
            {| Qdrant.vectors_size := VectorDB.dimension connected;
               Qdrant.points := ∅ |}]>
          (Qdrant.collections (qdrant uploaded))),
     true).
Proof.
  eapply (recreate_replaces_collection connected (qdrant uploaded));
    vm_compute; reflexivity.
Defined.

Lemma delete_by_document_only_that_document_witness :
  let server := qdrant two_projects in
  (VectorDB.delete_by_document connected server (py "uuid-0")).2 = true
  ∧ indexed_ids (VectorDB.delete_by_document connected server (py "uuid-0")).1
      (VectorDB.collection_name connected) (py "uuid-0") = ∅
  ∧ indexed_ids (VectorDB.delete_by_document connected server (py "uuid-0")).1
      (VectorDB.collection_name connected) (py "uuid-2")
    = indexed_ids server (VectorDB.collection_name connected) (py "uuid-2").
Proof.
  eapply (delete_by_document_only_that_document connected (qdrant two_projects)).
  - reflexivity.
  - reflexivity.
  - vm_compute. reflexivity.
  - vm_compute. discriminate.
Defined.

Section Upsert.
Import VectorDB.

Lemma make_points_lookup ids : ∀ es ts ms i k e t md,
  ids !! i = Some k -> es !! i = Some e -> ts !! i = Some t -> ms !! i = Some md ->
  make_points ids es ts ms !! i
  = Some {| Qdrant.id := k; Qdrant.vector := e;
            Qdrant.payload := md ∪ {[ py "text" := VStr t ]} |}.
Proof.
  induction ids as [|k' ids IH]; intros es ts ms i k e t md Hk He Ht Hmd; [done|].
  destruct es as [|e' es]; [done|]. destruct ts as [|t' ts]; [done|].
  destruct ms as [|md' ms]; [done|].
  destruct i as [|i]; simpl in *; [congruence|]. by apply IH.
Qed.

Lemma make_points_ids ids : ∀ es ts ms k,
  k ∈ Qdrant.id <$> make_points ids es ts ms -> k ∈ ids.
Proof.
  induction ids as [|k' ids IH]; intros es ts ms k Hin; [done|].
  destruct es as [|e' es]; [by apply elem_of_nil in Hin|].
  destruct ts as [|t' ts]; [by apply elem_of_nil in Hin|].
  destruct ms as [|md' ms]; [by apply elem_of_nil in Hin|].
  cbn [make_points] in Hin. rewrite fmap_cons in Hin.
  apply elem_of_cons in Hin as [-> | Hin]; [by left|].
  right. by eapply IH.
Qed.

Lemma make_points_NoDup ids : ∀ es ts ms,
  NoDup ids -> NoDup (Qdrant.id <$> make_points ids es ts ms).
Proof.
  induction ids as [|k ids IH]; intros es ts ms Hnd; [constructor|].
  destruct es as [|e es]; [constructor|]. destruct ts as [|t ts]; [constructor|].
  destruct ms as [|md ms]; [constructor|].
  apply NoDup_cons in Hnd as [Hnot Hnd].
  cbn [make_points]. rewrite fmap_cons. apply NoDup_cons. split; [|by apply IH].
  intros Hin. by apply make_points_ids in Hin.
Qed.

Lemma foldl_insert_other pts : ∀ (m : gmap str Qdrant.PointStruct) k,
  k ∉ Qdrant.id <$> pts ->
  foldl (fun m p => <[Qdrant.id p := p]> m) m pts !! k = m !! k.
Proof.
  induction pts as [|p pts IH]; intros m k Hnot; [done|].
  rewrite fmap_cons in Hnot. apply not_elem_of_cons in Hnot as [Hne Hnot].
  simpl. rewrite IH by done. by rewrite lookup_insert_ne.
Qed.

Lemma foldl_insert_lookup pts : ∀ (m : gmap str Qdrant.PointStruct) p,
  NoDup (Qdrant.id <$> pts) -> p ∈ pts ->
  foldl (fun m p => <[Qdrant.id p := p]> m) m pts !! Qdrant.id p = Some p.
Proof.
  induction pts as [|q pts IH]; intros m p Hnd Hin;
    [by apply elem_of_nil in Hin|].
  rewrite fmap_cons in Hnd. apply NoDup_cons in Hnd as [Hnot Hnd].
  apply elem_of_cons in Hin as [-> | Hin]; simpl.
  - rewrite foldl_insert_other by done. apply lookup_insert_eq.
  - by apply IH.
Qed.

(** After a successful [upsert_chunks] of distinct ids, each chunk is stored
    under its id with the embedding of its text and, as payload, its
    metadata and its text; the points stored under other ids are as they
    were. *)
Theorem upsert_chunks_stores self server chunk_ids texts metadatas :
  (upsert_chunks self server chunk_ids texts metadatas).2 = true ->
  NoDup chunk_ids ->
  ∃ m c c',
    embedding_model self = Some m
    ∧ Qdrant.collections server !! collection_name self = Some c
    ∧ Qdrant.collections (upsert_chunks self server chunk_ids texts metadatas).1
        !! collection_name self = Some c'
    ∧ Qdrant.vectors_size c' = Qdrant.vectors_size c
    ∧ (∀ i k t md,
         chunk_ids !! i = Some k -> texts !! i = Some t -> metadatas !! i = Some md ->
         Qdrant.points c' !! k
         = Some {| Qdrant.id := k; Qdrant.vector := encode m t;
                   Qdrant.payload := md ∪ {[ py "text" := VStr t ]} |})
    ∧ (∀ k, k ∉ chunk_ids -> Qdrant.points c' !! k = Qdrant.points c !! k).
Proof.
  intros Hok Hnd. unfold upsert_chunks, upsert_chunks_try in *.
  unfold generate_embeddings_batch in *.
  destruct (embedding_model self) as [m|]; [|done].
  cbn [mbind outcome_bind] in *.
  destruct (the_client self) as [cl|]; [|done].
  cbn [mbind outcome_bind] in *. unfold Qdrant.upsert in *.
  destruct (Qdrant.get_collection server (collection_name self)) as [c|] eqn:Hget;
    [|done].
  cbn [mbind outcome_bind mret outcome_ret] in *.
  destruct (forallb _ _); [|done]. cbn [fst mret outcome_ret].
  exists m, c. eexists. split; [done|]. split.
  { unfold Qdrant.get_collection in Hget.
    destruct (Qdrant.available server); [|done]. cbn [mbind outcome_bind] in Hget.
    destruct (Qdrant.collections server !! collection_name self); [|done].
    congruence. }
  split.
  { cbn [Qdrant.collections Qdrant.with_collections]. apply lookup_insert_eq. }
  split; [done|]. cbn [Qdrant.points]. split.
  - intros i k t md Hk Ht Hmd.
    pose proof (make_points_lookup chunk_ids (encode m <$> texts) texts metadatas
                  i k (encode m t) t md Hk) as Hpt.
    rewrite list_lookup_fmap, Ht in Hpt. specialize (Hpt eq_refl eq_refl Hmd).
    apply list_elem_of_lookup_2 in Hpt.
    by apply (foldl_insert_lookup _ (Qdrant.points c)) in Hpt;
      [|apply make_points_NoDup].
  - intros k Hnot. apply foldl_insert_other. intros Hin.
    by apply make_points_ids in Hin.
Qed.

End Upsert.

Lemma upsert_chunks_stores_witness :
  ∃ m c c',
    VectorDB.embedding_model connected = Some m
    ∧ Qdrant.collections (qdrant started) !! VectorDB.collection_name connected
      = Some c
    ∧ Qdrant.collections
        (VectorDB.upsert_chunks connected (qdrant started) [py "a"]
           [py "nine char"] [∅]).1
        !! VectorDB.collection_name connected = Some c'
    ∧ Qdrant.vectors_size c' = Qdrant.vectors_size c
    ∧ (∀ i k t md,
         [py "a"] !! i = Some k -> [py "nine char"] !! i = Some t ->
         [∅] !! i = Some md ->
         Qdrant.points c' !! k
         = Some {| Qdrant.id := k; Qdrant.vector := VectorDB.encode m t;
                   Qdrant.payload := md ∪ {[ py "text" := VStr t ]} |})
    ∧ (∀ k, k ∉ [py "a"] -> Qdrant.points c' !! k = Qdrant.points c !! k).
Proof.
  apply (upsert_chunks_stores connected (qdrant started) [py "a"] [py "nine char"]
           [∅]).
  - vm_compute. reflexivity.
  - apply NoDup_singleton.
Defined.

(** ** The prompt and the providers *)

Section Prompt.
Import LLM.

Lemma context_lines_contains context_chunks : ∀ k i c,
  context_chunks !! i = Some c ->
  occurs_in (py "[" ++ py (pretty (k + i)%nat) ++ py "] " ++ text c ++ nn)
    (context_lines k context_chunks).
Proof.
  induction context_chunks as [|c' rest IH]; intros k i c Hc; [done|].
  cbn [context_lines]. destruct i as [|i].
  - injection Hc as ->. rewrite Nat.add_0_r.
    exists [], (context_lines (S k) rest). cbn [app].
    by rewrite <- !(assoc_L (++)).
  - replace (k + S i)%nat with (S k + i)%nat by lia.
    do 5 apply occurs_in_app_r. by apply IH.
Qed.

(** The prompt shows each context chunk under its position, counted from 1,
    and asks the question as it was put. *)
Theorem prompt_numbers_context query context_chunks i c :
  context_chunks !! i = Some c ->
  occurs_in (py "[" ++ py (pretty (S i)) ++ py "] " ++ text c ++ nn)
    (generate_rag_prompt query context_chunks)
  ∧ occurs_in (py "Question: " ++ query ++ nn)
      (generate_rag_prompt query context_chunks).
Proof.
  intros Hc. unfold generate_rag_prompt. split.
  - do 4 apply occurs_in_app_r. apply occurs_in_app_l.
    apply (context_lines_contains context_chunks 1 i c Hc).
  - do 6 apply occurs_in_app_r.
    eexists [], _. cbn [app]. by rewrite <- !(assoc_L (++)).
Qed.

(** With context at hand, every model name that starts with "claude" is
    served by Anthropic under the one name claude-3-5-sonnet-20241022, and
    every other name by OpenAI under the name given; what the provider
    returns or raises is passed on as it is. *)
Theorem provider_routing llm query context_chunks :
  context_chunks ≠ [] ->
  (∀ suffix,
     generate_rag_response llm query context_chunks (py "claude" ++ suffix)
     = anthropic_messages llm (py "claude-3-5-sonnet-20241022")
         (generate_rag_prompt query context_chunks))
  ∧ (∀ model,
       startswith model (py "claude") = false ->
       generate_rag_response llm query context_chunks model
       = openai_chat llm model
           (py "You are a helpful assistant that answers questions based on provided context.")
           (generate_rag_prompt query context_chunks)).
Proof.
  intros Hne. apply truthy_true in Hne. unfold generate_rag_response.
  rewrite Hne. cbn [negb]. split.
  - intros suffix.
    assert (startswith (py "claude" ++ suffix) (py "claude") = true) as ->.
    { unfold startswith. apply bool_decide_eq_true. apply take_app_length. }
    by rewrite orb_true_r.
  - intros model Hstart. rewrite Hstart, orb_false_r.
    case_bool_decide as Heq; [|done].
    rewrite Heq in Hstart. vm_compute in Hstart. discriminate Hstart.
Qed.

End Prompt.

Lemma prompt_numbers_context_witness :
  let c := {| LLM.text := py "nine char"; LLM.score := 9 # 10; LLM.rank := 1 |} in
  occurs_in (py "[" ++ py (pretty 1%nat) ++ py "] " ++ LLM.text c ++ nn)
    (LLM.generate_rag_prompt (py "anything!!") [c])
  ∧ occurs_in (py "Question: " ++ py "anything!!" ++ nn)
      (LLM.generate_rag_prompt (py "anything!!") [c]).
Proof.
  apply (prompt_numbers_context (py "anything!!")
           [{| LLM.text := py "nine char"; LLM.score := 9 # 10; LLM.rank := 1 |}]
           0 {| LLM.text := py "nine char"; LLM.score := 9 # 10; LLM.rank := 1 |}).
  reflexivity.
Defined.

Lemma provider_routing_witness :
  let context_chunks :=
    [{| LLM.text := py "nine char"; LLM.score := 9 # 10; LLM.rank := 1 |}] in
  (∀ suffix,
     LLM.generate_rag_response failing_llm (py "anything!!") context_chunks
       (py "claude" ++ suffix)
     = LLM.anthropic_messages failing_llm (py "claude-3-5-sonnet-20241022")
         (LLM.generate_rag_prompt (py "anything!!") context_chunks))
  ∧ (∀ model,
       LLM.startswith model (py "claude") = false ->
       LLM.generate_rag_response failing_llm (py "anything!!") context_chunks model
       = LLM.openai_chat failing_llm model
           (py "You are a helpful assistant that answers questions based on provided context.")
           (LLM.generate_rag_prompt (py "anything!!") context_chunks)).
Proof.
  apply (provider_routing failing_llm (py "anything!!")
           [{| LLM.text := py "nine char"; LLM.score := 9 # 10; LLM.rank := 1 |}]).
  discriminate.
Defined.

(** ** More about the query route *)

Section QueryRoute.
Import Models Queries.

(** [submit_query] answers every request with a 500 and the detail "Failed
    to process query": the request declares no [project_id], which the route
    reads first. The session is rolled back: no query is stored, no counter
    moves, and the index is not consulted or changed. *)
Theorem submit_query_always_fails w request :
  submit_query w request
  = (w, Raised (HTTPException 500 (py "Failed to process query")))
  ∧ getattr request "project_id"
    = Raised (Exception (py "'QueryRequest' object has no attribute 'project_id'"))
  ∧ queries (db (submit_query w request).1) = queries (db w)
  ∧ projects (db (submit_query w request).1) = projects (db w)
  ∧ ∀ query_id,
      get_query (submit_query w request).1 query_id = get_query w query_id.
Proof. repeat split. Qed.

(** The excerpt of a citation is the chunk's content if that has at most
    200 characters, and otherwise its first 200 characters followed by
    three dots: never more than 203 characters. *)
Theorem citation_excerpt chunk_key chunk document_key document result :
  ∃ excerpt,
    citation chunk_key chunk document_key document result !! py "text"
    = Some (VStr excerpt)
    ∧ len excerpt <= 203
    ∧ (len (content chunk) <= 200 -> excerpt = content chunk)
    ∧ (200 < len (content chunk) ->
       excerpt = take 200 (content chunk) ++ py "..."
       ∧ len excerpt = 203).
Proof.
  eexists. split.
  { unfold citation.
    repeat (rewrite lookup_insert_ne by (vm_compute; discriminate)).
    apply lookup_singleton_eq. }
  unfold slice_to.
  destruct (len (content chunk) >? 200) eqn:E.
  - assert (len (take 200 (content chunk) ++ py "...") = 203) as Hlen.
    { unfold len in *. rewrite length_app, length_take.
      change (length (py "...")) with 3%nat. lia. }
    split; [lia|]. split; [lia|]. done.
  - split; [lia|]. split; [done | lia].
Qed.

Lemma context_and_citations_orphans d search_results : ∀ i,
  Forall (fun r => chunks d !! VectorDB.chunk_id r = None
                   ∨ find_document d (VectorDB.document_id r) = None)
    search_results ->
  context_and_citations d i search_results = ([], []).
Proof.
  induction search_results as [|result rest IH]; intros i Hall; simpl; [done|].
  apply Forall_cons in Hall as [Hmiss Hall]. rewrite (IH (S i) Hall).
  destruct Hmiss as [-> | Hdoc]; [done|]. rewrite Hdoc.
  by destruct (chunks d !! VectorDB.chunk_id result).
Qed.

(** Hits whose chunk or document row no longer exists are passed over. If
    that holds for every hit, the language model is not consulted: the
    answer is the fixed message of the language-model service and there is
    no citation. *)
Theorem orphan_hits_are_skipped w request search_results :
  search_results ≠ [] ->
  Forall (fun r => chunks (db w) !! VectorDB.chunk_id r = None
                   ∨ find_document (db w) (VectorDB.document_id r) = None)
    search_results ->
  answer w request search_results = (LLM.no_context_message, []).
Proof.
  intros Hne Hall. unfold answer. apply truthy_true in Hne. rewrite Hne.
  cbn [negb]. by rewrite context_and_citations_orphans.
Qed.

(** A [top_k] of zero and a similarity threshold of zero count as not
    given: the search runs with the defaults 5 and 0.7. *)
Lemma zero_means_default w text project denominator :
  run_search w text project (Some 0) (Some (0 # denominator))
  = run_search w text project None None.
Proof. reflexivity. Qed.

End QueryRoute.

Lemma orphan_hits_are_skipped_witness :
  answer deleted question [one_hit] = (LLM.no_context_message, []).
Proof.
  apply (orphan_hits_are_skipped deleted question [one_hit]).
  - discriminate.
  - constructor; [|constructor]. left. vm_compute. reflexivity.
Defined.

Lemma citations_one_per_hit_witness :
  (fun c : gmap str pyval => c !! py "chunk_id")
    <$> (context_and_citations (db uploaded) 0 [one_hit]).2
  = (fun r => Some (VStr (VectorDB.chunk_id r))) <$> [one_hit].
Proof.
  apply (citations_one_per_hit (db uploaded) [one_hit] 0).
  constructor; [|constructor].
  split; eexists; vm_compute; reflexivity.
Defined.

(** ** More about the document routes *)

Section DocumentRoutes.
Import Models Documents.

(** For a project that does not exist, the routes that take the project id
    from the path answer 404 and change nothing. *)
Theorem unknown_project_is_rejected w project_id file :
  projects (db w) !! project_id = None ->
  upload_document w project_id file
  = (w, Raised (HTTPException 404 (py "Project not found")))
  ∧ get_documents w project_id = Raised (HTTPException 404 (py "Project not found"))
  ∧ Projects.get_project w project_id
    = Raised (HTTPException 404 (py "Project not found"))
  ∧ Projects.delete_project w project_id
    = (w, Raised (HTTPException 404 (py "Project not found"))).
Proof.
  intros Hnone.
  unfold upload_document, get_documents, Projects.get_project,
    Projects.delete_project.
  by rewrite Hnone.
Qed.

(** A file of an unsupported type is rejected with 400 and nothing changes;
    a file that is too large is rejected with 400 and neither the stored
    rows nor the index change. *)
Theorem upload_rejections w project_id project file :
  projects (db w) !! project_id = Some project ->
  (content_type file ∉ allowed_types ->
   upload_document w project_id file
   = (w, Raised (HTTPException 400
                   (py "File type not supported: " ++ content_type file))))
  ∧ (content_type file ∈ allowed_types ->
     max_file_size (settings w) < saved_size file ->
     (upload_document w project_id file).2
     = Raised (HTTPException 400
                 (py "File too large. Maximum size is "
                  ++ py (pretty (max_file_size (settings w))) ++ py " bytes"))
     ∧ db (upload_document w project_id file).1 = db w
     ∧ qdrant (upload_document w project_id file).1 = qdrant w).
Proof.
  intros Hproject. unfold upload_document. rewrite Hproject. split.
  - intros Hnot. by rewrite bool_decide_eq_true_2.
  - intros Hin Hbig. rewrite bool_decide_eq_false_2 by (by intros Hnot).
    cbn [uuid4 settings]. by replace (saved_size file >? max_file_size (settings w))
      with true by lia.
Qed.

(** A document or a project id that does not match: [delete_document]
    answers 404 for a document that does not exist and for one that belongs
    to another project, and changes nothing. *)
Theorem delete_document_not_found w project_id document_id :
  (documents (db w) !! document_id = None
   ∨ ∃ document, documents (db w) !! document_id = Some document
                 ∧ doc_project_id document ≠ project_id) ->
  delete_document w project_id document_id
  = (w, Raised (HTTPException 404 (py "Document not found"))).
Proof.
  unfold delete_document. intros [-> | (document & -> & Hother)]; [done|].
  by rewrite bool_decide_eq_false_2.
Qed.



End DocumentRoutes.

Lemma unknown_project_is_rejected_witness :
  Documents.upload_document started (py "nowhere") nine_chars
  = (started, Raised (HTTPException 404 (py "Project not found")))
  ∧ Documents.get_documents started (py "nowhere")
    = Raised (HTTPException 404 (py "Project not found"))
  ∧ Projects.get_project started (py "nowhere")
    = Raised (HTTPException 404 (py "Project not found"))
  ∧ Projects.delete_project started (py "nowhere")
    = (started, Raised (HTTPException 404 (py "Project not found"))).
Proof.
  apply (unknown_project_is_rejected started (py "nowhere") nine_chars).
  vm_compute. reflexivity.
Defined.

Lemma delete_document_not_found_witness :
  Documents.delete_document uploaded (py "p2") (py "uuid-0")
  = (uploaded, Raised (HTTPException 404 (py "Document not found"))).
Proof.
  apply (delete_document_not_found uploaded (py "p2") (py "uuid-0")).
  right. eexists. split; [vm_compute; reflexivity|]. vm_compute. discriminate.
Defined.

Lemma upload_rejections_witness :
  Documents.upload_document started (py "p1") picture
  = (started, Raised (HTTPException 400
                        (py "File type not supported: "
                         ++ Documents.content_type picture)))
  ∧ (Documents.upload_document started (py "p1") huge_file).2
    = Raised (HTTPException 400
                (py "File too large. Maximum size is "
                 ++ py (pretty (max_file_size (settings started)))
                 ++ py " bytes"))
  ∧ db (Documents.upload_document started (py "p1") huge_file).1 = db started
  ∧ qdrant (Documents.upload_document started (py "p1") huge_file).1
    = qdrant started.
Proof.
  assert (projects (db started) !! py "p1"
          = Some {| document_count := 0; query_count := 0 |}) as Hproject
    by (vm_compute; reflexivity).
  split.
  - apply (proj1 (upload_rejections started (py "p1")
                    {| document_count := 0; query_count := 0 |} picture
                    Hproject)).
    apply (bool_decide_unpack _). vm_compute. exact I.
  - apply (proj2 (upload_rejections started (py "p1")
                    {| document_count := 0; query_count := 0 |} huge_file
                    Hproject)).
    + apply (bool_decide_unpack _). vm_compute. exact I.
    + vm_compute. reflexivity.
Defined.


Section Upload.
Import Models Documents.

Lemma chunk_ids_put_chunk d k c document_id :
  chunk_document_id c = document_id ->
  chunk_ids (put_chunk d k c) document_id = {[k]} ∪ chunk_ids d document_id.
Proof.
  intros Hc. unfold chunk_ids, put_chunk. cbn [chunks].
  rewrite map_filter_insert_True by done. apply dom_insert_L.
Qed.

(** What the loop over the chunks leaves alone, and what it returns. *)
Lemma store_chunks_spec file_id project_id file_name chunks_data : ∀ w,
  let r := store_chunks w file_id project_id file_name chunks_data in
  settings r.1 = settings w ∧ qdrant r.1 = qdrant w
  ∧ vector_db r.1 = vector_db w ∧ llm r.1 = llm w
  ∧ projects (db r.1) = projects (db w)
  ∧ documents (db r.1) = documents (db w)
  ∧ queries (db r.1) = queries (db w)
  ∧ chunk_ids (db r.1) file_id = list_to_set r.2.1.1 ∪ chunk_ids (db w) file_id
  ∧ r.2.1.2 = Chunking.content <$> chunks_data
  ∧ length r.2.1.1 = length chunks_data
  ∧ length r.2.2 = length chunks_data
  ∧ Forall (fun md : gmap str pyval =>
              md !! py "document_id" = Some (VStr file_id)) r.2.2.
Proof.
  induction chunks_data as [|chunk_data rest IH]; intros w.
  - cbn. repeat split; [by rewrite union_empty_l_L | constructor].
  - cbn [store_chunks uuid4].
    set (w1 := set_db _ _).
    specialize (IH w1). cbn zeta in IH.
    destruct (store_chunks w1 file_id project_id file_name rest)
      as [w2 [[ids texts] metadatas]].
    cbn [fst snd] in *.
    destruct IH as (-> & -> & -> & -> & -> & -> & -> & Hrows & -> & Hl1 & Hl2 & Hmd).
    subst w1. cbn [settings qdrant vector_db llm db set_db projects documents
                   queries put_chunk].
    repeat split; try done.
    + rewrite Hrows. cbn [db set_db].
      rewrite chunk_ids_put_chunk by done. cbn [list_to_set].
      by rewrite (assoc_L (∪)), (comm_L (∪) (list_to_set ids)).
    + cbn [length]. by rewrite Hl1.
    + cbn [length]. by rewrite Hl2.
    + constructor; [|done]. by rewrite lookup_insert_eq.
Qed.



End Upload.



Section UploadIndexes.
Import Models Documents.

Lemma make_points_ids_all ids : ∀ es ts ms,
  length es = length ids -> length ts = length ids -> length ms = length ids ->
  Qdrant.id <$> VectorDB.make_points ids es ts ms = ids.
Proof.
  induction ids as [|k ids IH]; intros es ts ms He Ht Hm; [done|].
  destruct es as [|e es]; [done|]. destruct ts as [|t ts]; [done|].
  destruct ms as [|md ms]; [done|].
  cbn [VectorDB.make_points]. rewrite fmap_cons. cbn [Qdrant.id].
  f_equal. apply IH; simpl in *; lia.
Qed.

Lemma make_points_payloads ids k v : ∀ es ts ms,
  Forall (fun md : gmap str pyval => md !! k = Some v) ms ->
  Forall (fun p => Qdrant.payload p !! k = Some v)
    (VectorDB.make_points ids es ts ms).
Proof.
  induction ids as [|i ids IH]; intros es ts ms Hall; [constructor|].
  destruct es as [|e es]; [constructor|]. destruct ts as [|t ts]; [constructor|].
  destruct ms as [|md ms]; [constructor|].
  apply Forall_cons in Hall as [Hmd Hall]. cbn [VectorDB.make_points].
  constructor; [|by apply IH]. cbn [Qdrant.payload].
  by apply lookup_union_Some_l.
Qed.

Lemma make_points_dimension ids size : ∀ es ts ms,
  Forall (fun e => len e = size) es ->
  forallb (fun p => len (Qdrant.vector p) =? size)
    (VectorDB.make_points ids es ts ms) = true.
Proof.
  induction ids as [|i ids IH]; intros es ts ms Hall; [done|].
  destruct es as [|e es]; [done|]. destruct ts as [|t ts]; [done|].
  destruct ms as [|md ms]; [done|].
  apply Forall_cons in Hall as [He Hall]. cbn [VectorDB.make_points forallb].
  rewrite IH by done. cbn [Qdrant.vector]. rewrite He. by rewrite Z.eqb_refl.
Qed.

Lemma filtered_dom_after_inserts cond pts : ∀ (m : gmap str Qdrant.PointStruct),
  Forall (fun p => Qdrant.condition_holds (Qdrant.payload p) cond = true) pts ->
  dom (filter (fun kv => Qdrant.condition_holds (Qdrant.payload kv.2) cond = true)
         (foldl (fun m p => <[Qdrant.id p := p]> m) m pts))
  = list_to_set (Qdrant.id <$> pts)
    ∪ dom (filter (fun kv => Qdrant.condition_holds (Qdrant.payload kv.2) cond = true)
             m).
Proof.
  induction pts as [|p pts IH]; intros m Hall.
  - cbn. by rewrite union_empty_l_L.
  - apply Forall_cons in Hall as [Hp Hall]. cbn [foldl]. rewrite IH by done.
    rewrite map_filter_insert_True by done. rewrite dom_insert_L, fmap_cons.
    cbn [list_to_set].
    by rewrite (assoc_L (∪)), (comm_L (∪) (list_to_set (Qdrant.id <$> pts))).
Qed.

(** On a connected, reachable vector database whose collection has the
    dimension of the model, and for a document id not yet in use, an upload
    leaves the index and the chunk rows of the new document in agreement:
    the ids indexed for the document are exactly the ids of its chunk
    rows. *)
Theorem upload_indexes_its_chunks w project_id project file text m c :
  projects (db w) !! project_id = Some project ->
  content_type file ∈ allowed_types ->
  saved_size file <= max_file_size (settings w) ->
  extracted file = Returned text ->
  VectorDB.client (vector_db w) = Some tt ->
  VectorDB.embedding_model (vector_db w) = Some m ->
  Qdrant.reachable (qdrant w) = true ->
  Qdrant.collections (qdrant w) !! VectorDB.collection_name (vector_db w) = Some c ->
  (∀ t, len (VectorDB.encode m t) = Qdrant.vectors_size c) ->
  chunk_ids (db w) (uuid4 w).1 = ∅ ->
  indexed_ids (qdrant w) (VectorDB.collection_name (vector_db w)) (uuid4 w).1 = ∅ ->
  indexed_ids (qdrant (upload_document w project_id file).1)
    (VectorDB.collection_name (vector_db w)) (uuid4 w).1
  = chunk_ids (db (upload_document w project_id file).1) (uuid4 w).1.
Proof.
  intros Hproject Hin Hsize Htext Hcl Hmodel Hup Hc Hdim Hrows Hidx.
  unfold upload_document.
  rewrite Hproject. rewrite bool_decide_eq_false_2 by (by intros Hnot).
  cbn [uuid4 settings fst] in *.
  replace (saved_size file >? max_file_size (settings w)) with false by lia.
  unfold process_uploaded, uploaded_at, processing_failed.
  cbn [settings set_db]. rewrite Htext.
  cbn [Chunking.process_document mbind outcome_bind mret outcome_ret].
  remember (py ("uuid-" +:+ pretty (uuids w))) as file_id eqn:Hfile.
  clear Hfile.
  set (w1 := set_db _ _).
  pose proof (store_chunks_spec file_id project_id (upload_filename file)
                (hierarchical_chunking (settings w) text None None) w1) as Hspec.
  cbn zeta in Hspec.
  destruct (store_chunks w1 _ _ _ _) as [w2 [[ids texts] metadatas]].
  cbn [fst snd] in Hspec.
  destruct Hspec as (_ & Hq & Hv & _ & _ & _ & _ & Hstored & Htexts & Hl1 & Hl2 & Hmd).
  assert (chunk_ids (db w1) file_id = ∅) as Hrows1 by (by subst w1).
  rewrite Hrows1, union_empty_r_L in Hstored.
  assert (qdrant w1 = qdrant w) as Hq1 by (by subst w1).
  assert (vector_db w1 = vector_db w) as Hv1 by (by subst w1).
  rewrite Hq1 in Hq. rewrite Hv1 in Hv.
  destruct ids as [|k ids];
    cbn [truthy fst snd db set_db set_qdrant qdrant put_document].
  - unfold chunk_ids in *. cbn [chunks put_document]. rewrite Hstored, Hq.
    exact Hidx.
  - transitivity (list_to_set (C := gset str) (k :: ids));
      [|unfold chunk_ids in *; cbn [chunks put_document]; by rewrite Hstored].
    unfold VectorDB.upsert_chunks, VectorDB.upsert_chunks_try,
      VectorDB.generate_embeddings_batch, VectorDB.the_client, Qdrant.upsert,
      Qdrant.get_collection, Qdrant.available.
    rewrite Hv, Hq, Hmodel, Hcl, Hup.
    cbn [mbind outcome_bind mret outcome_ret]. rewrite Hc.
    cbn [mbind outcome_bind mret outcome_ret].
    rewrite make_points_dimension.
    2:{ apply Forall_fmap, Forall_forall. intros t _. apply Hdim. }
    cbn [mret outcome_ret fst]. unfold indexed_ids in *.
    cbn [Qdrant.collections Qdrant.with_collections].
    rewrite lookup_insert_eq. cbn [Qdrant.points]. rewrite Hc in Hidx.
    rewrite filtered_dom_after_inserts.
    + rewrite Hidx, union_empty_r_L. f_equal.
      apply make_points_ids_all.
      * rewrite length_fmap, Htexts, length_fmap. lia.
      * rewrite Htexts, length_fmap. lia.
      * lia.
    + eapply Forall_impl; [apply make_points_payloads, Hmd|].
      intros p Hp. by apply condition_holds_true.
Qed.

End UploadIndexes.

Lemma upload_indexes_its_chunks_witness :
  indexed_ids (qdrant (Documents.upload_document started (py "p1") nine_chars).1)
    (VectorDB.collection_name (vector_db started)) (uuid4 started).1
  = chunk_ids (db (Documents.upload_document started (py "p1") nine_chars).1)
      (uuid4 started).1.
Proof.
  eapply (upload_indexes_its_chunks started (py "p1")
            {| document_count := 0; query_count := 0 |} nine_chars (py "nine char")
            toy_model).
  - vm_compute. reflexivity.
  - vm_compute. do 3 right. left.
  - vm_compute. discriminate.
  - reflexivity.
  - reflexivity.
  - reflexivity.
  - reflexivity.
  - vm_compute. reflexivity.
  - intros t. reflexivity.
  - vm_compute. reflexivity.
  - vm_compute. reflexivity.
Defined.

(** ** Projects and start-up *)

Section ProjectRoutes.
Import Models Projects.


End ProjectRoutes.


(** At start-up, with a client and a model that load and a reachable server
    that does not hold the collection yet, the collection is created empty
    with the dimension of the model's embeddings, which is also the
    dimension the service works with from then on, whatever dimension is
    configured. *)
Theorem lifespan_creates_collection settings env server m :
  VectorDB.new_client env = Returned tt ->
  VectorDB.load_model env (embedding_model_name settings) = Returned m ->
  Qdrant.reachable server = true ->
  Qdrant.collections server !! qdrant_collection_name settings = None ->
  Main.lifespan settings env server
  = ({| VectorDB.client := Some tt;
        VectorDB.embedding_model := Some m;
        VectorDB.collection_name := qdrant_collection_name settings;
        VectorDB.dimension := len (VectorDB.encode m (py "test")) |},
     Qdrant.with_collections server
       (<[qdrant_collection_name settings :=
            {| Qdrant.vectors_size := len (VectorDB.encode m (py "test"));
               Qdrant.points := ∅ |}]> (Qdrant.collections server))).
Proof.
  intros Hclient Hmodel Hup Hnone. unfold Main.lifespan.
  assert (VectorDB.connect settings env (VectorDB.new settings)
          = ({| VectorDB.client := Some tt;
                VectorDB.embedding_model := Some m;
                VectorDB.collection_name := qdrant_collection_name settings;
                VectorDB.dimension := len (VectorDB.encode m (py "test")) |},
             true)) as ->.
  { unfold VectorDB.connect. rewrite Hclient, Hmodel.
    case_bool_decide as Hdim; [done|].
    unfold VectorDB.set_embedding_model, VectorDB.set_client, VectorDB.new.
    cbn [VectorDB.client VectorDB.embedding_model VectorDB.collection_name
         VectorDB.dimension]. by rewrite Hdim. }
  by rewrite create_collection_absent.
Qed.

Lemma lifespan_creates_collection_witness :
  Main.lifespan default_settings three_dimensions empty_server
  = ({| VectorDB.client := Some tt;
        VectorDB.embedding_model :=
          Some {| VectorDB.encode := fun _ => [1 # 1; 0 # 1; 0 # 1] |};
        VectorDB.collection_name := qdrant_collection_name default_settings;
        VectorDB.dimension :=
          len (VectorDB.encode {| VectorDB.encode := fun _ => [1 # 1; 0 # 1; 0 # 1] |}
                 (py "test")) |},
     Qdrant.with_collections empty_server
       (<[qdrant_collection_name default_settings :=
            {| Qdrant.vectors_size :=
                 len (VectorDB.encode
                        {| VectorDB.encode := fun _ => [1 # 1; 0 # 1; 0 # 1] |}
                        (py "test"));
               Qdrant.points := ∅ |}]> (Qdrant.collections empty_server))).
Proof.
  apply (lifespan_creates_collection default_settings three_dimensions empty_server
           {| VectorDB.encode := fun _ => [1 # 1; 0 # 1; 0 # 1] |});
    reflexivity.
Defined.
